(** * NetworkForecaster: a shallow embedding of backend/models/forecaster.py

    The class [NetworkForecaster] wraps Prophet.  Its three attributes become
    a record that every method threads explicitly; exceptions are values of
    [res]; the numeric part of Prophet (the optimiser and the predictive
    sampler) is an oracle fixed in a Section, while the bookkeeping Prophet
    does around it (row counts, the future frame, "not fitted" errors) is
    written out.

    Numbers.  Counts are Python/NumPy integers, modelled as [Z].  Floats are
    modelled as rationals extended with the IEEE special values ([fnum]):
    division by zero and NaN propagation follow NumPy.  Where the rounding
    of a finite operation decides what a method answers (the subtraction
    and the means of the trend analysis, whose comparison gives the
    direction) the operation is an oracle of the Section; elsewhere finite
    operations are exact, and statements about a value rounded to two
    decimals are stated to within a hundredth when a decimal tie would make
    the exact rounding differ from the rounding of the double.  Dates are day
    numbers ([Z]), counted from 1970-01-01: the records carry 'YYYY-MM-DD'
    strings, which [pd.to_datetime] maps to midnight timestamps.  The dates
    the forecaster computes itself are checked against the calendar
    ([datetime_min], [datetime_max], [Timestamp_max_day]). *)

From Stdlib Require Import List ZArith QArith Qround Qabs Bool Lia Lqa.
From Stdlib Require Import Sorted Permutation.
Import ListNotations.

Local Open Scope Z_scope.

(** ** Exceptions and results *)

Inductive exn : Type :=
| KeyError        (* df['date'] on a frame without that column *)
| IndexError      (* iloc out of bounds *)
| ValueError      (* Prophet: "Dataframe has less than 2 non-NaN rows." etc. *)
| NotFitted       (* Prophet: Exception('Model has not been fit.') *)
| FitFailure      (* the optimiser gave up *)
| TypeError       (* subscripting None *)
| OutOfBoundsDatetime.   (* a date that pandas cannot build or write *)

Inductive res (A : Type) : Type :=
| Ok (a : A)
| Raise (e : exn).
Arguments Ok {A} a.
Arguments Raise {A} e.

Definition bind {A B} (r : res A) (k : A -> res B) : res B :=
  match r with
  | Ok a => k a
  | Raise e => Raise e
  end.

Notation "'do' x <- r ; k" := (bind r (fun x => k))
  (at level 10, x name, r at level 100, k at level 200).

(** ** Floats: rationals with the IEEE special values *)

Inductive fnum : Type :=
| Fin (q : Q)
| PInf
| NInf
| NaN.

Definition Qlt_bool (a b : Q) : bool := negb (Qle_bool b a).

Definition is_finite (x : fnum) : bool :=
  match x with Fin _ => true | _ => false end.

Definition fneg (x : fnum) : fnum :=
  match x with
  | Fin q => Fin (- q)
  | PInf => NInf
  | NInf => PInf
  | NaN => NaN
  end.

Definition fadd (x y : fnum) : fnum :=
  match x, y with
  | NaN, _ | _, NaN => NaN
  | PInf, NInf | NInf, PInf => NaN
  | PInf, _ | _, PInf => PInf
  | NInf, _ | _, NInf => NInf
  | Fin a, Fin b => Fin (a + b)
  end.

Definition fsub (x y : fnum) : fnum := fadd x (fneg y).

(* sign of a float as seen by multiplication and division: zero counts as +0 *)
Definition fsign (x : fnum) : comparison :=
  match x with
  | Fin q => (0 ?= q)%Q
  | PInf => Lt
  | NInf => Gt
  | NaN => Eq
  end.

Definition inf_of_signs (s t : comparison) : fnum :=
  match s, t with
  | Eq, _ | _, Eq => NaN
  | Lt, Lt | Gt, Gt => PInf
  | _, _ => NInf
  end.

Definition fmul (x y : fnum) : fnum :=
  match x, y with
  | NaN, _ | _, NaN => NaN
  | Fin a, Fin b => Fin (a * b)
  | _, _ => inf_of_signs (fsign x) (fsign y)
  end.

(* NumPy true division: x/0 is +-inf, 0/0 is nan, with a warning, no exception *)
Definition fdiv (x y : fnum) : fnum :=
  match x, y with
  | NaN, _ | _, NaN => NaN
  | Fin a, Fin b =>
      if Qeq_bool b 0
      then inf_of_signs (fsign x) Lt
      else Fin (a / b)
  | Fin _, _ => Fin 0
  | _, Fin b => inf_of_signs (fsign x) (if Qlt_bool b 0 then Gt else Lt)
  | _, _ => NaN
  end.

Definition fabs (x : fnum) : fnum :=
  match x with
  | Fin q => Fin (Qabs q)
  | PInf | NInf => PInf
  | NaN => NaN
  end.

(* x > y on floats: False as soon as one side is NaN *)
Definition fgt (x y : fnum) : bool :=
  match x, y with
  | NaN, _ | _, NaN => false
  | Fin a, Fin b => Qlt_bool b a
  | PInf, PInf => false
  | PInf, _ => true
  | _, NInf => match x with NInf => false | _ => true end
  | _, _ => false
  end.

(* x != 0 on floats: True for NaN and the infinities *)
Definition fnonzero (x : fnum) : bool :=
  match x with
  | Fin q => negb (Qeq_bool q 0)
  | _ => true
  end.

Definition of_Z (z : Z) : fnum := Fin (inject_Z z).

(** int(x) truncates towards zero *)
Definition py_int (q : Q) : Z := Z.quot (Qnum q) (Zpos (Qden q)).

(** round(x, 2): to the nearest hundredth, the special values pass through.
    On the exact rational a tie goes to the even neighbour; Python rounds the
    double, which is rarely an exact tie, so that for a decimal tie such as
    39/40 the two can differ by a hundredth. *)
Definition round_half_even (q : Q) : Z :=
  let f := Qfloor q in
  match (q - inject_Z f ?= 1 # 2)%Q with
  | Lt => f
  | Gt => f + 1
  | Eq => if Z.even f then f else f + 1
  end.

Definition py_round2 (x : fnum) : fnum :=
  match x with
  | Fin q => Fin (inject_Z (round_half_even (q * 100)) / 100)
  | _ => x
  end.

(** ** Python sequence helpers *)

(* s[i] for a possibly negative i *)
Definition iloc {A} (l : list A) (i : Z) : res A :=
  let n := Z.of_nat (length l) in
  let j := if i <? 0 then i + n else i in
  if (j <? 0) || (n <=? j) then Raise IndexError
  else match nth_error l (Z.to_nat j) with
       | Some a => Ok a
       | None => Raise IndexError
       end.

(* a slice bound, clipped as Python does *)
Definition clip_index (n : nat) (i : Z) : nat :=
  let len := Z.of_nat n in
  let j := if i <? 0 then i + len else i in
  Z.to_nat (Z.min (Z.max j 0) len).

(* s[:stop] and s[start:] *)
Definition slice_to {A} (l : list A) (stop : Z) : list A :=
  firstn (clip_index (length l) stop) l.
Definition slice_from {A} (l : list A) (start : Z) : list A :=
  skipn (clip_index (length l) start) l.

(* head(n) and tail(n) of a frame, n >= 0 *)
Definition head {A} (n : nat) (l : list A) : list A := firstn n l.
Definition tail {A} (n : nat) (l : list A) : list A := skipn (length l - n) l.

(** ** The calendar *)

(* 0001-01-01 and 9999-12-31, the dates strftime('%Y-%m-%d') can write *)
Definition datetime_min : Z := -719162.
Definition datetime_max : Z := 2932896.

(* the last day of a microsecond-resolution Timestamp, the resolution of a
   column parsed from date strings *)
Definition Timestamp_max_day : Z := 106751991.

(* ts.strftime('%Y-%m-%d') *)
Definition strftime (d : Z) : res Z :=
  if (d <? datetime_min) || (datetime_max <? d)
  then Raise OutOfBoundsDatetime
  else Ok d.

(** ** Data *)

(* one element of historical_data *)
Record HistoricalRecord : Type := mkRecord {
  date : Z;
  total_vehicles : Z
}.

(* a row of the Prophet frame: columns ds and y *)
Record Row : Type := mkRow {
  ds : Z;
  y : Z
}.

Definition DataFrame : Type := list Row.

(** df.sort_values('ds'), as a stable insertion sort.  pandas leaves the
    relative order of rows with equal dates to the sorting kernel; no
    statement below depends on that order. *)
Fixpoint insert_row (r : Row) (l : DataFrame) : DataFrame :=
  match l with
  | [] => [r]
  | x :: l' => if ds r <=? ds x then r :: l else x :: insert_row r l'
  end.

Fixpoint sort_values (l : DataFrame) : DataFrame :=
  match l with
  | [] => []
  | r :: l' => insert_row r (sort_values l')
  end.

(** prepare_data: an empty list gives a frame without columns, so that
    df['date'] raises KeyError; otherwise the two columns are renamed and the
    rows sorted.  No row is dropped or merged. *)
Definition prepare_data (historical_data : list HistoricalRecord)
  : res DataFrame :=
  match historical_data with
  | [] => Raise KeyError
  | _ =>
      let df_prophet :=
        map (fun r => mkRow (date r) (total_vehicles r)) historical_data in
      Ok (sort_values df_prophet)
  end.

(** ** Prophet

    What the class uses of the library.  The optimiser and the predictive
    sampler are the Section's oracle; the checks Prophet performs around them
    are written out after its source (forecaster.py of the prophet package). *)

Record ProphetConfig : Type := mkConfig {
  daily_seasonality : bool;
  weekly_seasonality : bool;
  yearly_seasonality : bool;
  multiplicative : bool;            (* seasonality_mode='multiplicative' *)
  changepoint_prior_scale : Q;
  interval_width : Q
}.

(* the columns of a predicted row that the class reads *)
Record Predicted : Type := mkPredicted {
  trend : Q;
  yhat : Q;
  yhat_lower : Q;
  yhat_upper : Q
}.

Record ForecastRow : Type := mkForecastRow {
  fds : Z;
  vals : Predicted
}.

(* pd.Series.unique(): first occurrences, in order *)
Fixpoint unique (l : list Z) : list Z :=
  match l with
  | [] => []
  | x :: l' => x :: filter (fun z => negb (z =? x)) (unique l')
  end.

Fixpoint insert_date (d : Z) (l : list Z) : list Z :=
  match l with
  | [] => [d]
  | x :: l' => if d <=? x then d :: l else x :: insert_date d l'
  end.

Fixpoint sort_dates (l : list Z) : list Z :=
  match l with
  | [] => []
  | d :: l' => insert_date d (sort_dates l')
  end.

(* Series.max() of a date column; None stands for NaT *)
Definition col_max (l : list Z) : option Z :=
  match l with
  | [] => None
  | d :: l' => Some (fold_left Z.max l' d)
  end.

(* pd.date_range(start=d, periods=n, freq='D') *)
Definition date_range (d : Z) (n : nat) : list Z :=
  map (fun k => d + Z.of_nat k) (seq 0 n).

(* the value of a method that returns {} on its error paths *)
Inductive dict (A : Type) : Type :=
| EmptyDict
| Dict (a : A).
Arguments EmptyDict {A}.
Arguments Dict {A} a.

Section Forecaster.

(** The fitted parameters, the optimiser (None when it does not converge)
    and the predictive sampler: the values of a row at date [d] may depend
    on the whole frame of dates being predicted. *)
Variable Params : Type.
Variable optimize : ProphetConfig -> DataFrame -> option Params.
Variable sample : ProphetConfig -> Params -> list Z -> Z -> Predicted.
Variable np_sqrt : fnum -> fnum.

(** The float arithmetic of the trend analysis, on finite doubles: the
    subtraction of Series.diff() and the mean of Series.mean() round, and
    what they round to decides the comparison of two means that are nearly
    equal. *)
Variable float_sub : Q -> Q -> Q.
Variable float_mean : list Q -> Q.

Record Prophet : Type := mkProphet {
  config : ProphetConfig;
  history_dates : option (list Z);
  params : option Params
}.

(* Prophet(...) *)
Definition Prophet_init (c : ProphetConfig) : Prophet :=
  mkProphet c None None.

(** Prophet.fit, called on a fresh object only: fewer than two rows is a
    ValueError raised before anything is stored; then history_dates is
    stored, then the optimiser runs. *)
Definition fit (m : Prophet) (df : DataFrame) : res unit * Prophet :=
  if (length df <? 2)%nat then (Raise ValueError, m)
  else
    let hd := sort_dates (unique (map ds df)) in
    let m1 := mkProphet (config m) (Some hd) (params m) in
    match optimize (config m) df with
    | None => (Raise FitFailure, m1)
    | Some th => (Ok tt, mkProphet (config m) (Some hd) (Some th))
    end.

(** Prophet.make_future_dataframe(periods, freq='D'), include_history
    left at True *)
Definition make_future_dataframe (m : Prophet) (periods : Z)
  : res (list Z) :=
  match history_dates m with
  | None => Raise NotFitted
  | Some hd =>
      match col_max hd with
      | None => Raise ValueError
      | Some last_date =>
          if periods + 1 <? 0 then Raise ValueError
          else if Timestamp_max_day <? last_date + periods
          then Raise OutOfBoundsDatetime      (* pd.date_range overflows *)
          else
            let dates := date_range last_date (Z.to_nat (periods + 1)) in
            let dates := filter (fun d => last_date <? d) dates in
            let dates := slice_to dates periods in
            Ok (hd ++ dates)
      end
  end.

(** Prophet.predict(df): one output row per input date, in order.  An
    object whose fit did not complete has no parameters and cannot predict;
    an empty frame is a ValueError. *)
Definition predict (m : Prophet) (dates : list Z) : res (list ForecastRow) :=
  match params m with
  | None => Raise NotFitted
  | Some th =>
      match dates with
      | [] => Raise ValueError
      | _ => Ok (map (fun d => mkForecastRow d (sample (config m) th dates d))
                     dates)
      end
  end.

(** ** The class *)

Record NetworkForecaster : Type := mkForecaster {
  model : option Prophet;
  training_data : option DataFrame;
  forecast_result : option (list ForecastRow)
}.

(* __init__ *)
Definition init : NetworkForecaster := mkForecaster None None None.

(* train_model: no seasonality, growth='linear',
   changepoint_prior_scale=0.001, interval_width=0.90 *)
Definition train_config : ProphetConfig :=
  mkConfig false false false false (1 # 1000) (9 # 10).

(* validate_model: weekly and yearly seasonality, multiplicative,
   changepoint_prior_scale=0.05, interval_width=0.90 *)
Definition validation_config : ProphetConfig :=
  mkConfig false true true true (5 # 100) (9 # 10).

(** the body of the try block of train_model: the attributes keep what was
    assigned before an exception *)
Definition train_model_body (historical_data : list HistoricalRecord)
    (self : NetworkForecaster) : res unit * NetworkForecaster :=
  match prepare_data historical_data with
  | Raise e => (Raise e, self)
  | Ok df =>
      let self1 :=
        mkForecaster (model self) (Some df) (forecast_result self) in
      let m := Prophet_init train_config in
      let self2 :=
        mkForecaster (Some m) (training_data self1) (forecast_result self1) in
      let '(r, m') := fit m df in
      (r, mkForecaster (Some m') (training_data self2) (forecast_result self2))
  end.

Definition train_model (historical_data : list HistoricalRecord)
    (self : NetworkForecaster) : res bool * NetworkForecaster :=
  match train_model_body historical_data self with
  | (Ok _, self') => (Ok true, self')
  | (Raise _, self') => (Ok false, self')      (* except Exception *)
  end.

(** *** generate_forecast *)

Record Prediction : Type := mkPrediction {
  p_date : Z;                      (* row['ds'].strftime('%Y-%m-%d') *)
  predicted_vehicles : Z;
  lower_bound : Z;
  upper_bound : Z;
  confidence : Q
}.

Record Milestone : Type := mkMilestone {
  m_predicted_vehicles : Z;
  growth_from_current : Z;
  growth_percentage : fnum
}.

(* the returned dictionary; 'timestamp' (the wall clock) is left out *)
Record ForecastDict : Type := mkForecastDict {
  forecast_horizon : Z;
  current_vehicles : Z;
  current_date : Z;
  predictions : list Prediction;
  day_30 : Milestone;
  day_90 : Milestone;
  day_180 : Milestone;
  avg_daily_growth : Z;
  confidence_level : Q
}.

(* the entry appended for a row whose date can be written *)
Definition to_prediction (row : ForecastRow) : Prediction :=
  mkPrediction (fds row)
               (py_int (yhat (vals row)))
               (py_int (yhat_lower (vals row)))
               (py_int (yhat_upper (vals row)))
               (9 # 10).

(* the body of the loop over future_forecast.iterrows() *)
Definition prediction_of (row : ForecastRow) : res Prediction :=
  do date <- strftime (fds row);
  Ok (mkPrediction date
                   (py_int (yhat (vals row)))
                   (py_int (yhat_lower (vals row)))
                   (py_int (yhat_upper (vals row)))
                   (9 # 10)).

(* the loop: it stops at the first row whose date cannot be written *)
Fixpoint predictions_of (rows : list ForecastRow) : res (list Prediction) :=
  match rows with
  | [] => Ok []
  | row :: rows' =>
      do p <- prediction_of row;
      do ps <- predictions_of rows';
      Ok (p :: ps)
  end.

(* one entry of growth_metrics; the last value is a NumPy integer, the
   prediction a NumPy float, so the division follows [fdiv] *)
Definition milestone (e : ForecastRow) (last_historical_value : Z)
  : Milestone :=
  let yh := yhat (vals e) in
  mkMilestone
    (py_int yh)
    (py_int (yh - inject_Z last_historical_value))
    (py_round2
       (fmul (fdiv (fsub (Fin yh) (of_Z last_historical_value))
                   (of_Z last_historical_value))
             (Fin 100))).

(** what follows `self.forecast_result = forecast` inside the try block *)
Definition forecast_summary (days_ahead : Z) (td : option DataFrame)
    (forecast : list ForecastRow) : res ForecastDict :=
  match td with
  | None => Raise TypeError
  | Some [] => Raise IndexError                 (* ['y'].iloc[-1] *)
  | Some (r0 :: rest) =>
      let last_historical_date := fold_left Z.max (map ds rest) (ds r0) in
      let last_historical_value := y (last rest r0) in
      let future_forecast :=
        filter (fun r => last_historical_date <? fds r) forecast in
      do predictions <- predictions_of future_forecast;
      let n := Z.of_nat (length future_forecast) in
      do end_30_days <- iloc future_forecast (Z.min 29 (n - 1));
      do end_90_days <- iloc future_forecast (Z.min 89 (n - 1));
      do end_180_days <-
        (if 180 <=? n then iloc future_forecast (Z.min 179 (n - 1))
         else iloc future_forecast (-1));
      do current_date <- strftime last_historical_date;
      Ok (mkForecastDict
            days_ahead
            last_historical_value
            current_date
            predictions
            (milestone end_30_days last_historical_value)
            (milestone end_90_days last_historical_value)
            (milestone end_180_days last_historical_value)
            (py_int ((yhat (vals end_90_days)
                      - inject_Z last_historical_value) / 90))
            (9 # 10))
  end.

Definition generate_forecast_body (days_ahead : Z) (m : Prophet)
    (self : NetworkForecaster) : res ForecastDict * NetworkForecaster :=
  match make_future_dataframe m days_ahead with
  | Raise e => (Raise e, self)
  | Ok future =>
      match predict m future with
      | Raise e => (Raise e, self)
      | Ok forecast =>
          let self' :=
            mkForecaster (model self) (training_data self) (Some forecast) in
          (forecast_summary days_ahead (training_data self') forecast, self')
      end
  end.

Definition generate_forecast (days_ahead : Z) (self : NetworkForecaster)
  : res (dict ForecastDict) * NetworkForecaster :=
  match model self with
  | None => (Ok EmptyDict, self)               (* if not self.model *)
  | Some m =>
      match generate_forecast_body days_ahead m self with
      | (Ok r, self') => (Ok (Dict r), self')
      | (Raise _, self') => (Ok EmptyDict, self')   (* except Exception *)
      end
  end.

(** *** validate_model *)

Definition fsum (l : list fnum) : fnum := fold_left fadd l (Fin 0).

(* np.mean of an array: the empty mean is nan *)
Definition np_mean (l : list fnum) : fnum :=
  fdiv (fsum l) (of_Z (Z.of_nat (length l))).

Definition errors (y_true : list Z) (y_pred : list Q) : list fnum :=
  map (fun tp => fsub (of_Z (fst tp)) (Fin (snd tp))) (combine y_true y_pred).

Definition mean_absolute_error (y_true : list Z) (y_pred : list Q) : fnum :=
  np_mean (map fabs (errors y_true y_pred)).

Definition mean_squared_error (y_true : list Z) (y_pred : list Q) : fnum :=
  np_mean (map (fun e => fmul e e) (errors y_true y_pred)).

(* np.mean(np.abs((y_true - y_pred) / y_true)) * 100 *)
Definition mape_of (y_true : list Z) (y_pred : list Q) : fnum :=
  fmul (np_mean
          (map (fun tp => fabs (fdiv (fsub (of_Z (fst tp)) (Fin (snd tp)))
                                     (of_Z (fst tp))))
               (combine y_true y_pred)))
       (Fin 100).

Record Metrics : Type := mkMetrics {
  mae : fnum;
  rmse : fnum;
  mape : fnum;
  test_size_used : Z
}.

Definition validate_model_body (test_size : Z) (td : DataFrame)
  : res Metrics :=
  let train_data := slice_to td (- test_size) in
  let test_data := slice_from td (- test_size) in
  let temp_model := Prophet_init validation_config in
  match fit temp_model train_data with
  | (Raise e, _) => Raise e
  | (Ok _, temp_model) =>
      do forecast <- predict temp_model (map ds test_data);
      let y_true := map y test_data in
      let y_pred := map (fun r => yhat (vals r)) forecast in
      Ok (mkMetrics
            (py_round2 (mean_absolute_error y_true y_pred))
            (py_round2 (np_sqrt (mean_squared_error y_true y_pred)))
            (py_round2 (mape_of y_true y_pred))
            test_size)
  end.

Definition validate_model (test_size : Z) (self : NetworkForecaster)
  : res (dict Metrics) :=
  match model self, training_data self with
  | Some _, Some td =>
      match validate_model_body test_size td with
      | Ok m => Ok (Dict m)
      | Raise _ => Ok EmptyDict                    (* except Exception *)
      end
  | _, _ => Ok EmptyDict
  end.

(** *** get_trend_analysis *)

Inductive Direction : Type := accelerating | decelerating.

Record TrendAnalysis : Type := mkTrendAnalysis {
  avg_daily_trend_change : fnum;
  recent_30day_trend : fnum;
  historical_30day_trend : fnum;
  trend_direction : Direction;
  growth_momentum : fnum
}.

(* the change from each value to the next, starting after [prev] *)
Fixpoint changes (prev : Q) (l : list Q) : list Q :=
  match l with
  | [] => []
  | x :: l' => float_sub x prev :: changes x l'
  end.

(* Series.diff(): the first entry is NaN *)
Definition diff (l : list Q) : list fnum :=
  match l with
  | [] => []
  | x :: l' => NaN :: map Fin (changes x l')
  end.

Definition notna (x : fnum) : bool :=
  match x with NaN => false | _ => true end.

(* the entries of a column when all of them are finite *)
Fixpoint finite_values (l : list fnum) : option (list Q) :=
  match l with
  | [] => Some []
  | Fin q :: l' => option_map (cons q) (finite_values l')
  | _ => None
  end.

(* Series.mean(): NaN entries are skipped; nan when nothing is left *)
Definition pd_mean (l : list fnum) : fnum :=
  match filter notna l with
  | [] => NaN
  | l' =>
      match finite_values l' with
      | Some qs => Fin (float_mean qs)
      | None => np_mean l'
      end
  end.

Definition daily_change_of (fr : list ForecastRow) : list fnum :=
  diff (map (fun r => trend (vals r)) fr).

Definition get_trend_analysis (self : NetworkForecaster)
  : res (dict TrendAnalysis) :=
  match forecast_result self with
  | None => Ok EmptyDict
  | Some fr =>
      let daily_change := daily_change_of fr in
      let avg_trend_change := pd_mean daily_change in
      let recent_trend := pd_mean (tail 30 daily_change) in
      let historical_trend := pd_mean (head 30 daily_change) in
      let trend_direction :=
        if fgt recent_trend historical_trend
        then accelerating else decelerating in
      Ok (Dict (mkTrendAnalysis
                  (py_round2 avg_trend_change)
                  (py_round2 recent_trend)
                  (py_round2 historical_trend)
                  trend_direction
                  (if fnonzero historical_trend
                   then py_round2
                          (fmul (fsub (fdiv recent_trend historical_trend)
                                      (Fin 1))
                                (Fin 100))
                   else Fin 0)))
  end.

End Forecaster.

Arguments mkProphet {Params}.
Arguments config {Params}.
Arguments history_dates {Params}.
Arguments params {Params}.
Arguments Prophet_init {Params}.
Arguments fit {Params}.
Arguments make_future_dataframe {Params}.
Arguments predict {Params}.
Arguments mkForecaster {Params}.
Arguments model {Params}.
Arguments training_data {Params}.
Arguments forecast_result {Params}.
Arguments init {Params}.
Arguments train_model_body {Params}.
Arguments train_model {Params}.
Arguments generate_forecast_body {Params}.
Arguments generate_forecast {Params}.
Arguments validate_model_body {Params}.
Arguments validate_model {Params}.
Arguments get_trend_analysis {Params}.

(** ** The windows of the trend analysis as the specification words them

    "the mean change over the most recent 30 observed points against the mean
    change over the earliest 30 observed points": the observed points are the
    rows of the forecast frame whose date is not after the last date of the
    training data. *)



(** ** Predicates of the statements *)





(* a date that strftime can write *)
Definition formattable (d : Z) : Prop := datetime_min <= d <= datetime_max.

Definition is_max (m : Z) (l : list Z) : Prop :=
  In m l /\ Forall (fun x => x <= m) l.

(* the dates after the last one: last+1, ..., last+n *)
Definition next_days (last_date : Z) (n : nat) : list Z :=
  map (fun k => last_date + Z.of_nat k) (seq 1 n).

(* the mean of |(t - p) / t| over every point, times 100 *)
Definition mean_abs_pct (y_true : list Z) (y_pred : list Q) : Q :=
  (fold_left Qplus
     (map (fun tp => Qabs ((inject_Z (fst tp) - snd tp) / inject_Z (fst tp)))
          (combine y_true y_pred))
     0
   / inject_Z (Z.of_nat (length (combine y_true y_pred))) * 100)%Q.

Definition not_finite (x : fnum) : Prop := x = PInf \/ x = NaN.

Definition never_fitted {Params} (self : NetworkForecaster Params) : Prop :=
  match model self with
  | None => True
  | Some m => params m = None
  end.

(* the last element of a list, if any *)
Definition last_error {A} (l : list A) : option A :=
  nth_error l (length l - 1).

(* does the attribute hold a model on which a fit succeeded? *)
Definition params_fitted {Params} (m : option (Prophet Params)) : bool :=
  match m with
  | Some p => match params p with Some _ => true | None => false end
  | None => false
  end.

(** ** Concrete oracles, for evaluating the methods

    [line_*]: the straight line through the first and the last row, with an
    interval of constant half-width 3/5 around it. *)

Definition line_params : Type := (Z * Z * Q)%type.

Definition line_optimize (_ : ProphetConfig) (df : DataFrame)
  : option line_params :=
  match df with
  | [] => None
  | r0 :: _ =>
      let rl := last df r0 in
      Some (ds r0, y r0,
            (inject_Z (y rl - y r0) / inject_Z (ds rl - ds r0))%Q)
  end.

Definition line_sample (_ : ProphetConfig) (th : line_params)
    (_ : list Z) (d : Z) : Predicted :=
  let '(d0, y0, k) := th in
  let v := (inject_Z y0 + k * inject_Z (d - d0))%Q in
  mkPredicted v v (v - (3 # 5))%Q (v + (3 # 5))%Q.

(* a square root is not needed to evaluate what the statements are about *)
Definition id_sqrt (x : fnum) : fnum := x.

(* float arithmetic without rounding error *)
Definition exact_sub (a b : Q) : Q := (a - b)%Q.
Definition exact_mean (l : list Q) : Q :=
  (fold_left Qplus l 0 / inject_Z (Z.of_nat (length l)))%Q.


(** [kink_*]: a piecewise-linear trend whose slope is 1 up to day 10, 5 up
    to day 32 and 3 afterwards, continued with its last slope. *)




Definition days (n : nat) : list Z := map Z.of_nat (seq 0 n).


Definition run_train {Params}
    (optimize : ProphetConfig -> DataFrame -> option Params)
    (hd : list HistoricalRecord) : NetworkForecaster Params :=
  snd (train_model optimize hd init).

Definition run_forecast {Params}
    (optimize : ProphetConfig -> DataFrame -> option Params)
    (sample : ProphetConfig -> Params -> list Z -> Z -> Predicted)
    (hd : list HistoricalRecord) (days_ahead : Z)
  : res (dict ForecastDict) * NetworkForecaster Params :=
  generate_forecast sample days_ahead (run_train optimize hd).

(* 99 on day 0 and 100 on day 5: a slope of 1/5 per day *)
Definition slow_history : list HistoricalRecord :=
  [mkRecord 0 99; mkRecord 5 100].

(* a series that falls to zero *)
Definition falling_history : list HistoricalRecord :=
  [mkRecord 1 10; mkRecord 2 5; mkRecord 3 0].

(* a series with a zero inside its last two points *)
Definition dip_history : list HistoricalRecord :=
  [mkRecord 1 4; mkRecord 2 8; mkRecord 3 0; mkRecord 4 6].


(* two days at the end of the calendar: 9999-12-29 and 9999-12-30 *)
Definition late_history : list HistoricalRecord :=
  [mkRecord 2932894 99; mkRecord 2932895 100].

(** ** The simulated history (data/dimo_client.py)

    [get_historical_data_simulation] reads the wall clock and a seeded
    random generator.  The day of the call is the parameter [today] (one
    clock reading for the whole loop), the draws of random.randint(-8, 8)
    after random.seed(42) are the parameter [randint], indexed by the
    iteration, and the answer of get_total_vehicles() is [api_total].

    The dates of the entries are day numbers: datetime.utcnow() -
    timedelta(days=k) is [today - k] as long as that day is 0001-01-01
    ([datetime_min]) or later.  Before it the source raises OverflowError;
    with [today] a reading of the clock this needs [days] in the hundreds
    of thousands, and the definition leaves that path out: what is stated
    of the number of entries is stated for days inside the calendar. *)

(* an entry of historical_data; 'timestamp' repeats the date with the time
   of day and is left out *)
Record DailyMetric : Type := mkDailyMetric {
  sim_date : Z;
  sim_total_vehicles : Z;
  sim_new_vehicles : Z
}.

(* what the forecaster reads of an entry *)
Definition as_records (l : list DailyMetric) : list HistoricalRecord :=
  map (fun m => mkRecord (sim_date m) (sim_total_vehicles m)) l.

Definition base_daily_growth : Z := 150.

Module dimo_client.

Definition get_historical_data_simulation (api_total : option Z)
    (randint : nat -> Z) (today : Z) (days : Z) : res (list DailyMetric) :=
  (* self.get_total_vehicles() or 140000 *)
  let current_total :=
    match api_total with
    | Some t => if t =? 0 then 140000 else t
    | None => 140000
    end in
  let starting_total := current_total - days * base_daily_growth in
  let starting_total := Z.max 100000 starting_total in
  let historical_data :=
    map (fun day_index =>
           let date := today - (days - Z.of_nat day_index - 1) in
           let daily_variance := randint day_index in
           let vehicles_at_date :=
             starting_total + Z.of_nat day_index * base_daily_growth
             + daily_variance in
           mkDailyMetric date vehicles_at_date
                         (base_daily_growth + daily_variance))
        (seq 0 (Z.to_nat days)) in
  (* the closing log line reads historical_data[0] and [-1] *)
  match historical_data with
  | [] => Raise IndexError
  | _ => Ok historical_data
  end.

End dimo_client.

(** ** The analytics routes (routes/analytics.py)

    The database answer is the parameter [db_data]; an HTTPException with
    status 500 is a value of [http], its detail a value of [http_error]. *)

Inductive http_error : Type :=
| NoHistoricalData       (* "No historical data available" *)
| TrainFailed            (* "Failed to train forecasting model" *)
| ForecastFailed         (* "Failed to generate forecast" *)
| InsufficientData       (* "Insufficient data for growth rate calculation" *)
| DivisionByZero         (* str(ZeroDivisionError) *)
| Unexpected (e : exn).  (* str(e) of any other exception *)

Inductive http (A : Type) : Type :=
| Respond (a : A)
| HTTP500 (detail : http_error).
Arguments Respond {A} a.
Arguments HTTP500 {A} detail.

Definition http_bind {A B} (r : http A) (k : A -> http B) : http B :=
  match r with
  | Respond a => k a
  | HTTP500 d => HTTP500 d
  end.

(* a / b on Python numbers *)
Definition truediv (a b : Q) : http Q :=
  if Qeq_bool b 0 then HTTP500 DivisionByZero else Respond (a / b)%Q.

(* round(x, 2) on a finite Python float *)
Definition round2 (q : Q) : Q :=
  (inject_Z (round_half_even (q * 100)) / 100)%Q.

(* s[start:stop] *)
Definition slice {A} (l : list A) (start stop : Z) : list A :=
  let i := clip_index (length l) start in
  let j := clip_index (length l) stop in
  firstn (j - i) (skipn i l).

Definition sum_total_vehicles (l : list DailyMetric) : Z :=
  fold_left Z.add (map sim_total_vehicles l) 0.

Record ForecastResponse : Type := mkForecastResponse {
  resp_forecast : ForecastDict;
  resp_validation : dict Metrics;
  resp_trend_analysis : dict TrendAnalysis
}.

Record GrowthRate : Type := mkGrowthRate {
  time_period : Z;                 (* "<days_span> days" *)
  start_date : Z;
  end_date : Z;
  start_vehicles : Z;
  end_vehicles : Z;
  total_growth : Z;
  gr_growth_percentage : Q;
  gr_avg_daily_growth : Q;
  week_over_week_growth : Q
}.

Module analytics.

Section Routes.

Variable Params : Type.
Variable optimize : ProphetConfig -> DataFrame -> option Params.
Variable sample : ProphetConfig -> Params -> list Z -> Z -> Predicted.
Variable np_sqrt : fnum -> fnum.
Variable float_sub : Q -> Q -> Q.
Variable float_mean : list Q -> Q.
Variable randint : nat -> Z.

(* db.get_historical_data(days) and, when it is empty, the simulation *)
Definition historical_data_of (db_data : list DailyMetric)
    (api_total : option Z) (today : Z) (days : Z) : res (list DailyMetric) :=
  match db_data with
  | [] => dimo_client.get_historical_data_simulation api_total randint
                                                     today days
  | _ => Ok db_data
  end.

(** POST /api/analytics/forecast, on the module's one forecaster *)
Definition generate_forecast (db_data : list DailyMetric)
    (api_total : option Z) (today : Z) (days_ahead : Z)
    (forecaster : NetworkForecaster Params)
  : http ForecastResponse * NetworkForecaster Params :=
  match historical_data_of db_data api_total today 90 with
  | Raise e => (HTTP500 (Unexpected e), forecaster)
  | Ok [] => (HTTP500 NoHistoricalData, forecaster)
  | Ok historical_data =>
      match train_model optimize (as_records historical_data) forecaster with
      | (Raise e, forecaster) => (HTTP500 (Unexpected e), forecaster)
      | (Ok false, forecaster) => (HTTP500 TrainFailed, forecaster)
      | (Ok true, forecaster) =>
          match generate_forecast sample days_ahead forecaster with
          | (Raise e, forecaster) => (HTTP500 (Unexpected e), forecaster)
          | (Ok EmptyDict, forecaster) => (HTTP500 ForecastFailed, forecaster)
          | (Ok (Dict forecast_result), forecaster) =>
              match validate_model optimize sample np_sqrt 14 forecaster with
              | Raise e => (HTTP500 (Unexpected e), forecaster)
              | Ok validation_metrics =>
                  match get_trend_analysis float_sub float_mean forecaster with
                  | Raise e => (HTTP500 (Unexpected e), forecaster)
                  | Ok trend_analysis =>
                      (Respond (mkForecastResponse forecast_result
                                  validation_metrics trend_analysis),
                       forecaster)
                  end
              end
          end
      end
  end.

(** GET /api/analytics/growth-rate *)
Definition get_growth_rate (db_data : list DailyMetric)
    (api_total : option Z) (today : Z) : http GrowthRate :=
  match historical_data_of db_data api_total today 30 with
  | Raise e => HTTP500 (Unexpected e)
  | Ok historical_data =>
      match historical_data with
      | [] | [_] => HTTP500 InsufficientData
      | first_day :: rest =>
          let last_day := last rest first_day in
          let total_growth :=
            sim_total_vehicles last_day - sim_total_vehicles first_day in
          let days_span := Z.of_nat (length historical_data) in
          http_bind
            (if 0 <? days_span
             then truediv (inject_Z total_growth) (inject_Z days_span)
             else Respond 0%Q)
            (fun avg_daily_growth =>
          http_bind
            (if 0 <? sim_total_vehicles first_day
             then http_bind
                    (truediv (inject_Z total_growth)
                             (inject_Z (sim_total_vehicles first_day)))
                    (fun x => Respond (x * 100)%Q)
             else Respond 0%Q)
            (fun growth_percentage =>
          http_bind
            (if 14 <=? days_span
             then
               let last_week := slice_from historical_data (-7) in
               let prev_week := slice historical_data (-14) (-7) in
               http_bind
                 (truediv (inject_Z (sum_total_vehicles last_week)) 7)
                 (fun last_week_avg =>
               http_bind
                 (truediv (inject_Z (sum_total_vehicles prev_week)) 7)
                 (fun prev_week_avg =>
               if Qlt_bool 0 prev_week_avg
               then http_bind
                      (truediv (last_week_avg - prev_week_avg) prev_week_avg)
                      (fun x => Respond (x * 100)%Q)
               else Respond 0%Q))
             else Respond 0%Q)
            (fun wow_growth =>
          Respond (mkGrowthRate
                     days_span
                     (sim_date first_day)
                     (sim_date last_day)
                     (sim_total_vehicles first_day)
                     (sim_total_vehicles last_day)
                     total_growth
                     (round2 growth_percentage)
                     (round2 avg_daily_growth)
                     (round2 wow_growth)))))
      end
  end.

End Routes.

End analytics.

Arguments analytics.generate_forecast {Params}.

(* a value that is a number or nan, never an infinity *)
Definition finite_or_nan (x : fnum) : Prop := x = NaN \/ exists q, x = Fin q.

(** ** Concrete inputs for the routes *)

(* draws that sweep -8, ..., 8 *)
Definition saw_noise (i : nat) : Z := Z.of_nat (i mod 17) - 8.

(* the simulated history of [days] days ending on day 1000, without an
   answer from the API *)
Definition demo_history (days : Z) : list DailyMetric :=
  match dimo_client.get_historical_data_simulation None saw_noise 1000 days
  with
  | Ok l => l
  | Raise _ => []
  end.

(* three database entries rising by 10 a day *)
Definition steady_rows : list DailyMetric :=
  [mkDailyMetric 1 10 10; mkDailyMetric 2 20 10; mkDailyMetric 3 30 10].

(** ** Tactics for the concrete runs *)

(* evaluate a call and take its parts as the existential witnesses *)
Ltac exists_dict_and_state call :=
  match eval vm_compute in call with
  | (Ok (Dict ?r), ?s) => exists r, s
  end.

Ltac exists_dict call :=
  match eval vm_compute in call with
  | Ok (Dict ?r) => exists r
  end.

Ltac exists_some t :=
  match eval vm_compute in t with
  | Some ?v => exists v
  end.

Ltac by_evaluation := vm_compute; reflexivity.



(** * Properties *)

(** ** Integer conversion *)

Lemma py_int_nonneg (q : Q) : (0 <= q)%Q -> py_int q = Qfloor q.
Proof.
  destruct q as [n d]; unfold py_int, Qle; simpl; intros H.
  apply Z.quot_div_nonneg; lia.
Qed.

Lemma py_int_nonpos (q : Q) : (q <= 0)%Q -> py_int q = Qceiling q.
Proof.
  destruct q as [n d]; unfold py_int, Qceiling, Qle; simpl; intros H.
  replace n with (- - n) at 1 by lia.
  rewrite Z.quot_opp_l by lia.
  rewrite Z.quot_div_nonneg by lia.
  reflexivity.
Qed.



(** ** Sorting *)

Lemma insert_row_perm (r : Row) (l : DataFrame) :
  Permutation (r :: l) (insert_row r l).
Proof.
  induction l as [|x l IH]; simpl.
  - reflexivity.
  - destruct (ds r <=? ds x).
    + reflexivity.
    + rewrite perm_swap. now constructor.
Qed.

Lemma sort_values_perm (l : DataFrame) : Permutation l (sort_values l).
Proof.
  induction l as [|r l IH]; simpl.
  - constructor.
  - rewrite <- insert_row_perm. now constructor.
Qed.

Lemma insert_row_sorted (r : Row) (l : DataFrame) :
  StronglySorted Z.le (map ds l) ->
  StronglySorted Z.le (map ds (insert_row r l)).
Proof.
  induction l as [|x l IH]; simpl; intros H.
  - repeat constructor.
  - inversion H as [|? ? Hs Hall]; subst.
    destruct (Z.leb_spec (ds r) (ds x)); simpl.
    + constructor; [assumption|].
      constructor; [assumption|].
      eapply Forall_impl; [|exact Hall]. simpl; intros; lia.
    + constructor; [now apply IH|].
      apply (Permutation_Forall (Permutation_map ds (insert_row_perm r l))).
      simpl. constructor; [lia | assumption].
Qed.

Lemma sort_values_sorted (l : DataFrame) :
  StronglySorted Z.le (map ds (sort_values l)).
Proof.
  induction l as [|r l IH]; simpl.
  - constructor.
  - now apply insert_row_sorted.
Qed.

(** ** Slices *)

Lemma slice_to_whole_window {A} (l : list A) (t : Z) :
  Z.of_nat (length l) <= t -> slice_to l (- t) = [].
Proof.
  intros H. unfold slice_to, clip_index.
  destruct (Z.ltb_spec (- t) 0);
    match goal with
    | |- firstn (Z.to_nat ?e) _ = _ => replace e with 0 by lia
    end; reflexivity.
Qed.

Section Properties.

Context {Params : Type}.
Variable optimize : ProphetConfig -> DataFrame -> option Params.
Variable sample : ProphetConfig -> Params -> list Z -> Z -> Predicted.
Variable np_sqrt : fnum -> fnum.
Variable float_sub : Q -> Q -> Q.
Variable float_mean : list Q -> Q.

(* what fit leaves in the object *)
Lemma fit_outcome (m m' : Prophet Params) (df : DataFrame) (r : res unit) :
  fit optimize m df = (r, m') ->
  config m' = config m /\
  match r with
  | Ok _ => (2 <= length df)%nat /\ params m' <> None /\
            history_dates m' = Some (sort_dates (unique (map ds df)))
  | Raise _ => params m' = params m
  end.
Proof.
  unfold fit. destruct (Nat.ltb_spec (length df) 2).
  - intros [= <- <-]. now split.
  - destruct (optimize (config m) df); intros [= <- <-]; simpl.
    + repeat split; [assumption | discriminate].
    + now split.
Qed.

(** C8, as amended.  prepare_data sorts and does nothing else: the empty
    input raises KeyError; for any other input the result is sorted
    ascending by date (equal dates allowed) and is a permutation of the
    input rows, so a duplicated date keeps all of its rows. *)
Theorem prepare_data_sorts_and_keeps_rows :
  prepare_data [] = Raise KeyError /\
  forall r hd, exists df,
    prepare_data (r :: hd) = Ok df /\
    StronglySorted Z.le (map ds df) /\
    Permutation
      (map (fun x => mkRow (date x) (total_vehicles x)) (r :: hd)) df /\
    length df = length (r :: hd).
Proof.
  split; [reflexivity|].
  intros r hd. eexists. split; [reflexivity|].
  split; [apply sort_values_sorted|].
  split; [apply sort_values_perm|].
  rewrite <- (Permutation_length (sort_values_perm _)).
  now rewrite length_map.
Qed.

(** C1, as amended.  On an instance that holds no model, or a model on
    which no fit has succeeded, generate_forecast returns the empty
    dictionary and leaves the instance as it was; it does not raise. *)
Theorem generate_forecast_unfitted_returns_empty :
  forall (days_ahead : Z) (self : NetworkForecaster Params),
    never_fitted self ->
    generate_forecast sample days_ahead self = (Ok EmptyDict, self).
Proof.
  intros h self H. unfold never_fitted in H. unfold generate_forecast.
  destruct (model self) as [m|]; [|reflexivity].
  unfold generate_forecast_body.
  destruct (make_future_dataframe m h) as [future|e]; [|reflexivity].
  unfold predict. rewrite H. reflexivity.
Qed.

(** C9, as amended.  With a test window at least as long as the training
    data, validate_model returns the empty dictionary: the training prefix
    is empty, Prophet's fit raises on it, and the exception is caught. *)
Theorem validate_model_whole_window_returns_empty :
  forall (test_size : Z) (self : NetworkForecaster Params) (td : DataFrame),
    training_data self = Some td ->
    Z.of_nat (length td) <= test_size ->
    validate_model optimize sample np_sqrt test_size self = Ok EmptyDict.
Proof.
  intros t self td Htd Hlen. unfold validate_model. rewrite Htd.
  destruct (model self); [|reflexivity].
  unfold validate_model_body. rewrite (slice_to_whole_window td t Hlen).
  reflexivity.
Qed.

(** C10, as amended.  train_model never raises and answers with a
    boolean.  When preparation fails nothing is assigned.  When the fit
    fails after preparation the answer is False, training_data holds the
    newly prepared frame, and model holds the Prophet object constructed
    for this call, unfitted: the previous model is gone.  When the fit
    succeeds the answer is True. *)
Theorem train_model_total_not_atomic :
  forall (hd : list HistoricalRecord) (self : NetworkForecaster Params),
    (exists b self', train_model optimize hd self = (Ok b, self')) /\
    (forall e, prepare_data hd = Raise e ->
               train_model optimize hd self = (Ok false, self)) /\
    (forall df e m',
        prepare_data hd = Ok df ->
        fit optimize (Prophet_init train_config) df = (Raise e, m') ->
        train_model optimize hd self
        = (Ok false,
           mkForecaster (Some m') (Some df) (forecast_result self)) /\
        params m' = None /\ config m' = train_config) /\
    (forall df m',
        prepare_data hd = Ok df ->
        fit optimize (Prophet_init train_config) df = (Ok tt, m') ->
        train_model optimize hd self
        = (Ok true,
           mkForecaster (Some m') (Some df) (forecast_result self)) /\
        (2 <= length df)%nat /\ params m' <> None).
Proof.
  intros hd self. unfold train_model, train_model_body.
  split; [|split; [|split]].
  - destruct (prepare_data hd) as [df|e]; [|eauto].
    destruct (fit optimize (Prophet_init train_config) df) as [[[]|e] m'];
      simpl; eauto.
  - intros e H. now rewrite H.
  - intros df e m' H Hfit. rewrite H, Hfit.
    destruct (fit_outcome _ _ _ _ Hfit) as [Hc Hp]. simpl in Hp.
    now repeat split.
  - intros df m' H Hfit. rewrite H, Hfit.
    destruct (fit_outcome _ _ _ _ Hfit) as [Hc (Hlen & Hp & _)].
    now repeat split.
Qed.


(** ** Column maximum, unique and the future frame *)

Lemma fold_left_max_spec (l : list Z) (a : Z) :
  is_max (fold_left Z.max l a) (a :: l).
Proof.
  revert a. induction l as [|x l IH]; intros a; simpl.
  - split; [now left | repeat constructor; lia].
  - destruct (IH (Z.max a x)) as [Hin Hall]. split.
    + destruct Hin as [Hin | Hin]; [|now right; right].
      rewrite <- Hin.
      destruct (Z.max_spec a x) as [[_ ->] | [_ ->]]; simpl; auto.
    + inversion Hall as [|? ? Hm Hl]; subst.
      constructor; [lia|]. constructor; [lia | assumption].
Qed.

Lemma is_max_unique (l : list Z) (m m' : Z) :
  is_max m l -> is_max m' l -> m = m'.
Proof.
  intros [Hin Hall] [Hin' Hall']. rewrite Forall_forall in Hall, Hall'.
  apply Hall' in Hin. apply Hall in Hin'. lia.
Qed.

Lemma is_max_col_max (l : list Z) (m : Z) : is_max m l -> col_max l = Some m.
Proof.
  intros H. destruct l as [|a l]; [destruct H as [[] _]|].
  simpl. f_equal. eapply is_max_unique; [apply fold_left_max_spec | exact H].
Qed.

Lemma is_max_same_elements (l l' : list Z) (m : Z) :
  (forall x, In x l <-> In x l') -> is_max m l -> is_max m l'.
Proof.
  intros E [Hin Hall]. rewrite Forall_forall in Hall. split.
  - now apply E.
  - rewrite Forall_forall. intros x Hx. apply Hall. now apply E.
Qed.

Lemma unique_In (l : list Z) (x : Z) : In x (unique l) <-> In x l.
Proof.
  induction l as [|a l IH]; simpl; [tauto|].
  rewrite filter_In, IH. split.
  - intros [H | [H _]]; auto.
  - intros [H | H]; [now left|].
    destruct (Z.eqb_spec x a) as [->|Hne]; [now left|].
    right. now split.
Qed.

Lemma insert_date_In (d : Z) (l : list Z) (x : Z) :
  In x (insert_date d l) <-> x = d \/ In x l.
Proof.
  induction l as [|a l IH]; simpl.
  - intuition.
  - destruct (d <=? a); simpl; [intuition|]. rewrite IH. intuition.
Qed.

Lemma sort_dates_In (l : list Z) (x : Z) : In x (sort_dates l) <-> In x l.
Proof.
  induction l as [|a l IH]; simpl; [tauto|].
  rewrite insert_date_In, IH. intuition.
Qed.

Lemma filter_all {A} (p : A -> bool) (l : list A) :
  Forall (fun x => p x = true) l -> filter p l = l.
Proof.
  induction 1 as [|x l Hx _ IH]; simpl; [reflexivity|].
  now rewrite Hx, IH.
Qed.

Lemma filter_none {A} (p : A -> bool) (l : list A) :
  Forall (fun x => p x = false) l -> filter p l = [].
Proof.
  induction 1 as [|x l Hx _ IH]; simpl; [reflexivity|].
  now rewrite Hx.
Qed.

Lemma filter_map_comm {A B} (f : A -> B) (p : B -> bool) (l : list A) :
  filter p (map f l) = map f (filter (fun a => p (f a)) l).
Proof.
  induction l as [|a l IH]; simpl; [reflexivity|].
  rewrite IH. now destruct (p (f a)).
Qed.

Lemma next_days_after (last_date : Z) (n : nat) :
  Forall (fun d => last_date < d) (next_days last_date n).
Proof.
  unfold next_days. rewrite Forall_forall. intros d Hd.
  apply in_map_iff in Hd. destruct Hd as (k & <- & Hk).
  apply in_seq in Hk. lia.
Qed.

Lemma date_range_future (last_date : Z) (n : nat) :
  filter (fun d => last_date <? d) (date_range last_date (S n))
  = next_days last_date n.
Proof.
  unfold date_range. simpl seq. simpl map.
  rewrite <- seq_shift, map_map. simpl filter.
  replace (last_date <? last_date + 0) with false
    by (symmetry; apply Z.ltb_ge; lia).
  unfold next_days. rewrite <- seq_shift, map_map.
  apply filter_all. rewrite Forall_forall. intros d Hd.
  apply in_map_iff in Hd. destruct Hd as (k & <- & _).
  apply Z.ltb_lt. lia.
Qed.

Lemma next_days_sorted (last_date : Z) (n : nat) :
  StronglySorted Z.lt (next_days last_date n).
Proof.
  unfold next_days. generalize 1%nat as s.
  induction n as [|n IH]; intros s; simpl; constructor.
  - apply IH.
  - rewrite Forall_forall. intros d Hd.
    apply in_map_iff in Hd. destruct Hd as (k & <- & Hk).
    apply in_seq in Hk. lia.
Qed.

Lemma slice_to_length {A} (l : list A) (n : Z) :
  0 <= n -> length l = Z.to_nat n -> slice_to l n = l.
Proof.
  intros Hn Hl. unfold slice_to, clip_index.
  replace (n <? 0) with false by (symmetry; apply Z.ltb_ge; lia).
  replace (Z.to_nat _) with (length l) by lia.
  apply firstn_all.
Qed.

Lemma iloc_in_range {A} (l : list A) (i : Z) :
  - Z.of_nat (length l) <= i < Z.of_nat (length l) ->
  exists a, iloc l i = Ok a /\ In a l.
Proof.
  intros H. unfold iloc.
  set (n := Z.of_nat (length l)) in *.
  set (j := if i <? 0 then i + n else i).
  assert (Hj : 0 <= j < n) by (subst j; destruct (Z.ltb_spec i 0); lia).
  replace ((j <? 0) || (n <=? j)) with false.
  2:{ symmetry. apply orb_false_iff. split; [apply Z.ltb_ge | apply Z.leb_gt]; lia. }
  destruct (nth_error l (Z.to_nat j)) as [a|] eqn:E.
  - exists a. split; [reflexivity|]. eapply nth_error_In; eassumption.
  - apply nth_error_None in E. lia.
Qed.

(** ** What a successful call leaves behind *)

Lemma prepare_data_dates (hd : list HistoricalRecord) (df : DataFrame) :
  prepare_data hd = Ok df ->
  forall z, In z (map ds df) <-> In z (map date hd).
Proof.
  destruct hd as [|x hd]; [discriminate|].
  unfold prepare_data. intros [= <-] z.
  set (rows := map (fun r => mkRow (date r) (total_vehicles r)) (x :: hd)).
  assert (E : map date (x :: hd) = map ds rows)
    by (unfold rows; rewrite map_map; reflexivity).
  rewrite E.
  pose proof (Permutation_map ds (sort_values_perm rows)) as P.
  split; apply Permutation_in; [symmetry|]; exact P.
Qed.

Lemma train_model_success (hd : list HistoricalRecord)
    (self self1 : NetworkForecaster Params) :
  train_model optimize hd self = (Ok true, self1) ->
  exists df m th,
    prepare_data hd = Ok df /\
    (2 <= length df)%nat /\
    self1 = mkForecaster (Some m) (Some df) (forecast_result self) /\
    params m = Some th /\
    history_dates m = Some (sort_dates (unique (map ds df))).
Proof.
  unfold train_model, train_model_body.
  destruct (prepare_data hd) as [df|e]; [|discriminate].
  destruct (fit optimize (Prophet_init train_config) df) as [[u|e] m] eqn:Hfit;
    [|discriminate].
  intros [= <-].
  destruct (fit_outcome _ _ _ _ Hfit) as [_ (Hlen & Hp & Hh)].
  destruct (params m) as [th|] eqn:Hth; [|congruence].
  exists df, m, th. now repeat split.
Qed.

(** ** The calendar and the prediction loop *)

Lemma strftime_ok (d d' : Z) : strftime d = Ok d' -> d' = d /\ formattable d.
Proof.
  unfold strftime, formattable.
  destruct (Z.ltb_spec d datetime_min); [discriminate|].
  destruct (Z.ltb_spec datetime_max d); [discriminate|].
  simpl. intros [= <-]. split; [reflexivity | lia].
Qed.

Lemma strftime_formattable (d : Z) : formattable d -> strftime d = Ok d.
Proof.
  unfold strftime, formattable. intros H.
  replace (d <? datetime_min) with false by (symmetry; apply Z.ltb_ge; lia).
  replace (datetime_max <? d) with false by (symmetry; apply Z.ltb_ge; lia).
  reflexivity.
Qed.

Lemma predictions_of_ok (rows : list ForecastRow) (ps : list Prediction) :
  predictions_of rows = Ok ps ->
  ps = map to_prediction rows /\ Forall (fun x => formattable (fds x)) rows.
Proof.
  revert ps. induction rows as [|x rows IH]; intros ps; simpl.
  - intros [= <-]. split; [reflexivity | constructor].
  - unfold prediction_of.
    destruct (strftime (fds x)) as [d|e] eqn:Hd; [|discriminate].
    apply strftime_ok in Hd. destruct Hd as [-> Hd]. simpl.
    destruct (predictions_of rows) as [ps'|e]; [|discriminate].
    destruct (IH ps' eq_refl) as [-> Hall]. simpl.
    intros [= <-]. split; [reflexivity | now constructor].
Qed.

Lemma predictions_of_formattable (rows : list ForecastRow) :
  Forall (fun x => formattable (fds x)) rows ->
  predictions_of rows = Ok (map to_prediction rows).
Proof.
  induction 1 as [|x rows Hx _ IH]; simpl; [reflexivity|].
  unfold prediction_of. rewrite (strftime_formattable _ Hx). simpl.
  now rewrite IH.
Qed.

Lemma predictions_of_out_of_range (rows : list ForecastRow) :
  Exists (fun x => ~ formattable (fds x)) rows ->
  exists e, predictions_of rows = Raise e.
Proof.
  intros H. destruct (predictions_of rows) as [ps|e] eqn:E; [|eauto].
  apply predictions_of_ok in E. destruct E as [_ Hall].
  apply Exists_exists in H. destruct H as (x & Hin & Hx).
  rewrite Forall_forall in Hall. now destruct (Hx (Hall x Hin)).
Qed.

(* everything a returned dictionary says, read off the try block *)
Lemma forecast_summary_inv (h : Z) (r0 : Row) (rest : list Row)
    (forecast : list ForecastRow) (r : ForecastDict) :
  forecast_summary h (@Some DataFrame (r0 :: rest)) forecast = Ok r ->
  exists future_forecast e30 e90 e180,
    future_forecast
    = filter (fun x => fold_left Z.max (map ds rest) (ds r0) <? fds x)
             forecast /\
    predictions r = map to_prediction future_forecast /\
    Forall (fun x => formattable (fds x)) future_forecast /\
    iloc future_forecast (Z.min 29 (Z.of_nat (length future_forecast) - 1))
    = Ok e30 /\
    iloc future_forecast (Z.min 89 (Z.of_nat (length future_forecast) - 1))
    = Ok e90 /\
    (if 180 <=? Z.of_nat (length future_forecast)
     then iloc future_forecast
               (Z.min 179 (Z.of_nat (length future_forecast) - 1))
     else iloc future_forecast (-1)) = Ok e180 /\
    forecast_horizon r = h /\
    current_date r = fold_left Z.max (map ds rest) (ds r0) /\
    current_vehicles r = y (last rest r0) /\
    day_30 r = milestone e30 (current_vehicles r) /\
    day_90 r = milestone e90 (current_vehicles r) /\
    day_180 r = milestone e180 (current_vehicles r) /\
    avg_daily_growth r
    = py_int ((yhat (vals e90) - inject_Z (current_vehicles r)) / 90).
Proof.
  unfold forecast_summary. cbv zeta.
  set (L := fold_left Z.max (map ds rest) (ds r0)).
  set (ff := filter (fun x => L <? fds x) forecast).
  destruct (predictions_of ff) as [ps|e] eqn:Hps; [|discriminate].
  apply predictions_of_ok in Hps. destruct Hps as [-> Hall].
  simpl bind.
  destruct (iloc ff (Z.min 29 _)) as [e30|] eqn:H30; [|discriminate].
  destruct (iloc ff (Z.min 89 _)) as [e90|] eqn:H90; [|discriminate].
  simpl bind.
  destruct (if 180 <=? Z.of_nat (length ff) then _ else _)
    as [e180|] eqn:H180; [|discriminate].
  simpl bind.
  destruct (strftime L) as [d|] eqn:Hd; [|discriminate].
  apply strftime_ok in Hd. destruct Hd as [-> _].
  simpl bind. intros [= <-].
  exists ff, e30, e90, e180. simpl. now repeat split.
Qed.

Lemma generate_forecast_inv (h : Z)
    (self self' : NetworkForecaster Params) (r : ForecastDict) :
  generate_forecast sample h self = (Ok (Dict r), self') ->
  exists forecast r0 rest,
    forecast_result self' = Some forecast /\
    training_data self = Some (r0 :: rest) /\
    forecast_summary h (@Some DataFrame (r0 :: rest)) forecast = Ok r.
Proof.
  unfold generate_forecast.
  destruct (model self) as [m|]; [|discriminate].
  unfold generate_forecast_body.
  destruct (make_future_dataframe m h) as [future|e]; [|discriminate].
  destruct (predict sample m future) as [forecast|e]; [|discriminate].
  simpl training_data.
  destruct (forecast_summary h (training_data self) forecast)
    as [r'|e] eqn:Hs; [|discriminate].
  intros [= <- <-]. simpl forecast_result.
  destruct (training_data self) as [[|r0 rest]|]; try discriminate.
  exists forecast, r0, rest. now repeat split.
Qed.


(* the frame Prophet predicts after a successful training: the history dates
   followed by the next h days, as long as pandas can build them *)
Lemma frame_after_training (hd : list HistoricalRecord)
    (self self1 : NetworkForecaster Params) (h : Z) :
  train_model optimize hd self = (Ok true, self1) ->
  0 < h ->
  exists m th r0 rest last_date hdates,
    self1 = mkForecaster (Some m) (@Some DataFrame (r0 :: rest))
                         (forecast_result self) /\
    params m = Some th /\
    col_max (map date hd) = Some last_date /\
    fold_left Z.max (map ds rest) (ds r0) = last_date /\
    is_max last_date hdates /\
    (last_date + h <= Timestamp_max_day ->
     make_future_dataframe m h
     = Ok (hdates ++ next_days last_date (Z.to_nat h)) /\
     predict sample m (hdates ++ next_days last_date (Z.to_nat h))
     = Ok (map (fun d => mkForecastRow d
                  (sample (config m) th
                          (hdates ++ next_days last_date (Z.to_nat h)) d))
               (hdates ++ next_days last_date (Z.to_nat h)))) /\
    (Timestamp_max_day < last_date + h ->
     make_future_dataframe m h = Raise OutOfBoundsDatetime).
Proof.
  intros Htrain Hh.
  destruct (train_model_success _ _ _ Htrain)
    as (df & m & th & Hprep & Hlen & -> & Hth & Hhist).
  destruct df as [|r0 rest]; [simpl in Hlen; lia|].
  set (L := fold_left Z.max (map ds rest) (ds r0)).
  assert (HL : is_max L (map ds (r0 :: rest))) by apply fold_left_max_spec.
  (* the same maximum over the raw input and over history_dates *)
  assert (Hraw : col_max (map date hd) = Some L).
  { apply is_max_col_max. revert HL. apply is_max_same_elements.
    now apply prepare_data_dates. }
  assert (Hhd : is_max L (sort_dates (unique (map ds (r0 :: rest))))).
  { revert HL. apply is_max_same_elements. intros z.
    now rewrite sort_dates_In, unique_In. }
  set (hdates := sort_dates (unique (map ds (r0 :: rest)))) in *.
  set (n := Z.to_nat h).
  exists m, th, r0, rest, L, hdates.
  split; [reflexivity|]. split; [exact Hth|]. split; [exact Hraw|].
  split; [reflexivity|]. split; [exact Hhd|]. split.
  - intros Hmax. split.
    + unfold make_future_dataframe. rewrite Hhist.
      fold hdates. rewrite (is_max_col_max _ _ Hhd).
      replace (h + 1 <? 0) with false by (symmetry; apply Z.ltb_ge; lia).
      replace (Timestamp_max_day <? L + h) with false
        by (symmetry; apply Z.ltb_ge; lia).
      replace (Z.to_nat (h + 1)) with (S n) by lia.
      rewrite date_range_future.
      rewrite slice_to_length; [reflexivity | lia |].
      unfold next_days. now rewrite length_map, length_seq.
    + unfold predict. rewrite Hth.
      destruct (hdates ++ next_days L n) eqn:E; [|reflexivity].
      apply app_eq_nil in E. destruct E as [E _].
      destruct Hhd as [Hin _]. rewrite E in Hin. destruct Hin.
  - intros Hmax. unfold make_future_dataframe. rewrite Hhist.
    fold hdates. rewrite (is_max_col_max _ _ Hhd).
    replace (h + 1 <? 0) with false by (symmetry; apply Z.ltb_ge; lia).
    replace (Timestamp_max_day <? L + h) with true
      by (symmetry; apply Z.ltb_lt; lia).
    reflexivity.
Qed.

(* the rows of that frame that lie after the last training date *)
Lemma future_rows_after_training (f : Z -> ForecastRow) (hdates : list Z)
    (L : Z) (n : nat) :
  (forall d, fds (f d) = d) ->
  is_max L hdates ->
  filter (fun x => L <? fds x) (map f (hdates ++ next_days L n))
  = map f (next_days L n).
Proof.
  intros Hf Hhd.
  rewrite filter_map_comm, filter_app.
  rewrite filter_none, filter_all; [reflexivity| |].
  - eapply Forall_impl; [|apply next_days_after].
    simpl. intros d Hd. rewrite Hf. now apply Z.ltb_lt.
  - destruct Hhd as [_ Hall]. eapply Forall_impl; [|exact Hall].
    simpl. intros d Hd. rewrite Hf. now apply Z.ltb_ge.
Qed.

Lemma next_days_formattable (L : Z) (n : nat) :
  datetime_min <= L -> L + Z.of_nat n <= datetime_max ->
  Forall formattable (next_days L n).
Proof.
  intros Hlo Hhi. unfold next_days. rewrite Forall_forall. intros d Hd.
  apply in_map_iff in Hd. destruct Hd as (i & <- & Hi).
  apply in_seq in Hi. unfold formattable. lia.
Qed.

(* the forecast of a trained instance whose dates the calendar can write *)
Lemma forecast_after_training (hd : list HistoricalRecord)
    (self self1 : NetworkForecaster Params) (h last_date : Z) :
  train_model optimize hd self = (Ok true, self1) ->
  0 < h ->
  col_max (map date hd) = Some last_date ->
  datetime_min <= last_date ->
  last_date + h <= datetime_max ->
  exists r self2 hdates fr,
    generate_forecast sample h self1 = (Ok (Dict r), self2) /\
    forecast_result self2 = Some fr /\
    is_max last_date hdates /\
    map fds fr = hdates ++ next_days last_date (Z.to_nat h) /\
    map p_date (predictions r) = next_days last_date (Z.to_nat h).
Proof.
  intros Htrain Hh Hlast Hlo Hhi.
  destruct (frame_after_training _ _ _ _ Htrain Hh)
    as (m & th & r0 & rest & L & hdates & -> & Hth & Hraw & HL & Hhd
        & Hin & _).
  assert (L = last_date) by congruence. subst last_date.
  destruct Hin as [Hfuture Hpred];
    [unfold Timestamp_max_day; unfold datetime_max in Hhi; lia|].
  set (n := Z.to_nat h) in *.
  set (mk := fun d => mkForecastRow d
                        (sample (config m) th (hdates ++ next_days L n) d))
    in *.
  assert (Hff : filter (fun x => L <? fds x) (map mk (hdates ++ next_days L n))
                = map mk (next_days L n)).
  { now apply future_rows_after_training. }
  assert (Hn : length (map mk (next_days L n)) = n).
  { unfold next_days. now rewrite !length_map, length_seq. }
  assert (Hfmt : Forall (fun x => formattable (fds x)) (map mk (next_days L n))).
  { rewrite Forall_map. simpl. apply next_days_formattable; [exact Hlo | lia]. }
  assert (Hsum : exists r,
             forecast_summary h (@Some DataFrame (r0 :: rest))
                              (map mk (hdates ++ next_days L n)) = Ok r /\
             predictions r = map to_prediction (map mk (next_days L n))).
  { unfold forecast_summary. rewrite HL. cbv zeta. rewrite Hff, Hn.
    rewrite (predictions_of_formattable _ Hfmt). simpl bind.
    rewrite (strftime_formattable L) by (unfold formattable; lia).
    destruct (iloc_in_range (map mk (next_days L n)) (Z.min 29 (Z.of_nat n - 1)))
      as (e30 & -> & _); [lia|].
    destruct (iloc_in_range (map mk (next_days L n)) (Z.min 89 (Z.of_nat n - 1)))
      as (e90 & -> & _); [lia|].
    simpl bind.
    destruct (180 <=? Z.of_nat n).
    - destruct (iloc_in_range (map mk (next_days L n))
                              (Z.min 179 (Z.of_nat n - 1)))
        as (e180 & -> & _); [lia|].
      simpl. eexists. split; reflexivity.
    - destruct (iloc_in_range (map mk (next_days L n)) (-1))
        as (e180 & -> & _); [lia|].
      simpl. eexists. split; reflexivity. }
  destruct Hsum as (r & Hsum & Hp).
  exists r, (mkForecaster (Some m) (Some (r0 :: rest))
                          (Some (map mk (hdates ++ next_days L n)))),
         hdates, (map mk (hdates ++ next_days L n)).
  split; [|split; [reflexivity|split; [exact Hhd|split]]].
  - unfold generate_forecast, generate_forecast_body.
    cbn [model training_data forecast_result].
    rewrite Hfuture, Hpred. cbn [training_data]. now rewrite Hsum.
  - rewrite map_map. simpl. apply map_id.
  - rewrite Hp, !map_map. simpl. apply map_id.
Qed.

(* ... and of one whose future dates it cannot: the frame is stored when
   pandas could still build it, and the answer is empty *)
Lemma forecast_out_of_calendar (hd : list HistoricalRecord)
    (self self1 : NetworkForecaster Params) (h last_date : Z) :
  train_model optimize hd self = (Ok true, self1) ->
  0 < h ->
  col_max (map date hd) = Some last_date ->
  datetime_max < last_date + h ->
  fst (generate_forecast sample h self1) = Ok EmptyDict.
Proof.
  intros Htrain Hh Hlast Hhi.
  destruct (frame_after_training _ _ _ _ Htrain Hh)
    as (m & th & r0 & rest & L & hdates & -> & Hth & Hraw & HL & Hhd
        & Hin & Hout).
  assert (L = last_date) by congruence. subst last_date.
  unfold generate_forecast, generate_forecast_body.
  cbn [model training_data forecast_result].
  destruct (Z.le_gt_cases (L + h) Timestamp_max_day) as [Hle | Hgt].
  2:{ rewrite (Hout Hgt). reflexivity. }
  destruct (Hin Hle) as [-> ->].
  set (n := Z.to_nat h).
  set (mk := fun d => mkForecastRow d
                        (sample (config m) th (hdates ++ next_days L n) d)).
  assert (Hff : filter (fun x => L <? fds x) (map mk (hdates ++ next_days L n))
                = map mk (next_days L n)).
  { now apply future_rows_after_training. }
  assert (Hraise : exists e,
             forecast_summary h (@Some DataFrame (r0 :: rest))
                              (map mk (hdates ++ next_days L n)) = Raise e).
  { unfold forecast_summary. rewrite HL. cbv zeta. rewrite Hff.
    destruct (predictions_of_out_of_range (map mk (next_days L n)))
      as (e & ->); [|eexists; reflexivity].
    apply Exists_exists. exists (mk (L + h)). split.
    - apply in_map. unfold next_days. apply in_map_iff.
      exists (Z.to_nat h). split; [lia|]. apply in_seq. lia.
    - simpl. unfold formattable. lia. }
  destruct Hraise as (e & ->). reflexivity.
Qed.

(** C3, as amended.  After a successful train_model (which already requires
    at least two rows), with last the largest date of the input and a
    positive horizon h: as long as last+h is a date the calendar has
    (0001-01-01 to 9999-12-31), generate_forecast returns a filled dictionary
    whose predictions are exactly h points, dated last+1, ..., last+h,
    strictly increasing and starting the day after the last observed date;
    once last+h lies past the end of the calendar it returns the empty
    dictionary. *)
Theorem forecast_has_h_consecutive_days :
  forall (hd : list HistoricalRecord) (self self1 : NetworkForecaster Params)
         (h last_date : Z),
    train_model optimize hd self = (Ok true, self1) ->
    0 < h ->
    col_max (map date hd) = Some last_date ->
    datetime_min <= last_date ->
    (last_date + h <= datetime_max ->
     exists r self2,
       generate_forecast sample h self1 = (Ok (Dict r), self2) /\
       length (predictions r) = Z.to_nat h /\
       map p_date (predictions r) = next_days last_date (Z.to_nat h) /\
       hd_error (map p_date (predictions r)) = Some (last_date + 1) /\
       StronglySorted Z.lt (map p_date (predictions r))) /\
    (datetime_max < last_date + h ->
     fst (generate_forecast sample h self1) = Ok EmptyDict).
Proof.
  intros hd self self1 h L Htrain Hh Hraw Hlo. split.
  - intros Hhi.
    destruct (forecast_after_training _ _ _ _ _ Htrain Hh Hraw Hlo Hhi)
      as (r & self2 & hdates & fr & Hg & _ & _ & _ & Hdates).
    exists r, self2.
    split; [exact Hg|split; [|split; [exact Hdates|split]]].
    + rewrite <- (length_map p_date), Hdates.
      unfold next_days. now rewrite length_map, length_seq.
    + rewrite Hdates. unfold next_days.
      destruct (Z.to_nat h) as [|n'] eqn:En; [lia|]. reflexivity.
    + rewrite Hdates. apply next_days_sorted.
  - intros Hhi. now apply (forecast_out_of_calendar hd self self1 h L).
Qed.

(** ** Bounds of a prediction *)










(** ** Trend analysis *)



Lemma Forall_skipn {A} (P : A -> Prop) (k : nat) (l : list A) :
  Forall P l -> Forall P (skipn k l).
Proof.
  intros H. rewrite <- (firstn_skipn k l) in H.
  now apply Forall_app in H.
Qed.





Lemma finite_values_Fin (qs : list Q) : finite_values (map Fin qs) = Some qs.
Proof.
  induction qs as [|q qs IH]; simpl; [reflexivity|]. now rewrite IH.
Qed.




(* rounding to two decimals moves a number by half a hundredth at most *)
Lemma round_half_even_close (q : Q) :
  (Qabs (inject_Z (round_half_even q) - q) <= 1 # 2)%Q.
Proof.
  unfold round_half_even. cbv zeta.
  pose proof (Qfloor_le q) as Hlo. pose proof (Qlt_floor q) as Hhi.
  rewrite inject_Z_plus in Hhi. change (inject_Z 1) with 1%Q in Hhi.
  apply Qabs_Qle_condition.
  destruct (Qcompare_spec (q - inject_Z (Qfloor q)) (1 # 2)) as [E | E | E].
  - destruct (Z.even (Qfloor q)).
    + split; lra.
    + rewrite inject_Z_plus. change (inject_Z 1) with 1%Q. split; lra.
  - split; lra.
  - rewrite inject_Z_plus. change (inject_Z 1) with 1%Q. split; lra.
Qed.

Lemma py_round2_close (q : Q) :
  exists x, py_round2 (Fin q) = Fin x /\ (Qabs (x - q) < 1 # 100)%Q.
Proof.
  eexists. split; [reflexivity|].
  pose proof (round_half_even_close (q * 100)) as H.
  apply Qabs_Qle_condition in H. destruct H as [H1 H2].
  apply Qabs_Qlt_condition.
  set (z := inject_Z (round_half_even (q * 100))) in *.
  split.
  - setoid_replace (z / 100 - q)%Q with ((z - q * 100) / 100)%Q by field.
    apply Qlt_shift_div_l; [reflexivity|]. lra.
  - setoid_replace (z / 100 - q)%Q with ((z - q * 100) / 100)%Q by field.
    apply Qlt_shift_div_r; [reflexivity|]. lra.
Qed.




(** ** Validation: the percentage error *)

Lemma fold_fadd_not_finite (l : list fnum) (acc : fnum) :
  Forall (fun x => x <> NInf) l -> acc <> NInf ->
  not_finite acc \/ Exists not_finite l ->
  not_finite (fold_left fadd l acc).
Proof.
  unfold not_finite.
  revert acc. induction l as [|x l IH]; intros acc Hl Hacc H; simpl.
  - destruct H as [H | H]; [assumption | inversion H].
  - inversion Hl as [|? ? Hx Hl']; subst.
    apply IH; [assumption | destruct acc, x; simpl; congruence |].
    destruct H as [[-> | ->] | H].
    + left. destruct x; simpl; auto; congruence.
    + left. destruct x; simpl; auto.
    + inversion H as [? ? [-> | ->] | ? ? H']; subst.
      * left. destruct acc; simpl; auto; congruence.
      * left. destruct acc; simpl; auto.
      * now right.
Qed.

Lemma fold_fadd_finite (l : list Q) (acc : Q) :
  fold_left fadd (map Fin l) (Fin acc) = Fin (fold_left Qplus l acc).
Proof.
  revert acc. induction l as [|x l IH]; intros acc; simpl; [reflexivity|].
  apply IH.
Qed.

Lemma combine_In_left {A B} (a : A) (l : list A) (l' : list B) :
  In a l -> length l = length l' -> exists b, In (a, b) (combine l l').
Proof.
  revert l'. induction l as [|x l IH]; intros [|b l'] Hin Hlen;
    simpl in *; try tauto; try discriminate.
  destruct Hin as [-> | Hin].
  - exists b. now left.
  - destruct (IH l' Hin) as (b' & Hb'); [congruence|]. exists b'. now right.
Qed.

Lemma inject_Z_pos_nonzero (n : nat) :
  (0 < n)%nat -> Qeq_bool (inject_Z (Z.of_nat n)) 0 = false.
Proof.
  intros H. destruct n as [|n]; [lia|]. reflexivity.
Qed.

Lemma mape_of_zero_true_value (y_true : list Z) (y_pred : list Q) :
  length y_true = length y_pred ->
  In 0 y_true -> not_finite (mape_of y_true y_pred).
Proof.
  intros Hlen H0. unfold mape_of, np_mean, fsum.
  destruct (combine_In_left 0 y_true y_pred H0 Hlen) as (p & Hp).
  set (f := fun tp : Z * Q =>
              fabs (fdiv (fsub (of_Z (fst tp)) (Fin (snd tp))) (of_Z (fst tp)))).
  assert (Hsum : not_finite (fold_left fadd (map f (combine y_true y_pred))
                                       (Fin 0))).
  { apply fold_fadd_not_finite.
    - rewrite Forall_forall. intros x Hx. apply in_map_iff in Hx.
      destruct Hx as (tp & <- & _). unfold f.
      destruct (fdiv _ _); simpl; discriminate.
    - discriminate.
    - right. apply Exists_exists. exists (f (0, p)). split.
      + now apply in_map.
      + unfold f, not_finite. simpl.
        destruct (0 ?= inject_Z 0 + - p)%Q; simpl; auto. }
  assert (Hn : (0 < length (map f (combine y_true y_pred)))%nat).
  { rewrite length_map. destruct (combine y_true y_pred); [destruct Hp|].
    simpl; lia. }
  destruct (length (map f (combine y_true y_pred))) as [|n]; [lia|].
  destruct Hsum as [-> | ->]; [left | right]; reflexivity.
Qed.

Lemma mape_of_nonzero_true_values (y_true : list Z) (y_pred : list Q) :
  y_true <> [] -> length y_true = length y_pred ->
  ~ In 0 y_true ->
  mape_of y_true y_pred = Fin (mean_abs_pct y_true y_pred).
Proof.
  intros Hne Hlen H0. unfold mape_of, np_mean, fsum, mean_abs_pct.
  set (g := fun tp : Z * Q =>
              Qabs ((inject_Z (fst tp) - snd tp) / inject_Z (fst tp))).
  assert (E : map (fun tp : Z * Q =>
                     fabs (fdiv (fsub (of_Z (fst tp)) (Fin (snd tp)))
                                (of_Z (fst tp))))
                  (combine y_true y_pred)
              = map Fin (map g (combine y_true y_pred))).
  { rewrite map_map. apply map_ext_in. intros [t p] Hin.
    apply in_combine_l in Hin. simpl.
    assert (Ht : t <> 0) by (intros ->; now apply H0).
    unfold of_Z. simpl.
    replace (Qeq_bool (inject_Z t) 0) with false; [reflexivity|].
    symmetry. apply not_true_is_false. intros Hq.
    apply Qeq_bool_eq in Hq. unfold Qeq in Hq. simpl in Hq. lia. }
  rewrite E, fold_fadd_finite, !length_map.
  unfold of_Z, fdiv. rewrite inject_Z_pos_nonzero; [reflexivity|].
  destruct y_true; [congruence|]. destruct y_pred; [discriminate|]. simpl; lia.
Qed.

(* what validate_model reports as the percentage error: the mean over every
   held-out point, none excluded *)
Lemma validate_model_mape (test_size : Z) (self : NetworkForecaster Params)
    (td : DataFrame) (m : Metrics) :
    training_data self = Some td ->
    validate_model optimize sample np_sqrt test_size self = Ok (Dict m) ->
    exists y_pred,
      length y_pred = length (slice_from td (- test_size)) /\
      mape m = py_round2 (mape_of (map y (slice_from td (- test_size))) y_pred) /\
      (In 0 (map y (slice_from td (- test_size))) ->
       not_finite (mape m) /\ is_finite (mape m) = false) /\
      (~ In 0 (map y (slice_from td (- test_size))) ->
       mape m = py_round2
                  (Fin (mean_abs_pct (map y (slice_from td (- test_size)))
                                     y_pred))).
Proof.
  revert test_size self td m.
  intros t self td m Htd. unfold validate_model. rewrite Htd.
  destruct (model self); [|discriminate].
  unfold validate_model_body.
  set (test_data := slice_from td (- t)).
  destruct (fit optimize _ _) as [[u|e] tm]; [|discriminate].
  unfold predict. destruct (params tm) as [th|]; [|discriminate].
  destruct (map ds test_data) as [|d0 dates] eqn:Hdates; [discriminate|].
  rewrite <- Hdates. simpl bind. intros [= <-]. simpl mape.
  set (y_pred := map _ (map _ (map ds test_data))).
  assert (Hlen : length y_pred = length test_data)
    by (unfold y_pred; now rewrite !length_map).
  assert (Hne : map y test_data <> []).
  { destruct test_data; [discriminate Hdates | discriminate]. }
  exists y_pred. split; [exact Hlen|]. split; [reflexivity|]. split.
  - intros H0.
    assert (Hbad : not_finite (mape_of (map y test_data) y_pred)).
    { apply mape_of_zero_true_value; [now rewrite length_map | exact H0]. }
    destruct Hbad as [-> | ->]; simpl; unfold not_finite; auto.
  - intros H0. rewrite mape_of_nonzero_true_values; auto.
    now rewrite length_map.
Qed.

End Properties.

(** * The statements at concrete inputs *)


Lemma generate_forecast_unfitted_witness :
  never_fitted (@init line_params) /\
  generate_forecast line_sample 180 (@init line_params)
  = (Ok EmptyDict, init).
Proof.
  split; [exact I|].
  apply (generate_forecast_unfitted_returns_empty line_sample 180 init).
  exact I.
Defined.

(* C1: the call before any fit returns {} instead of raising *)
Lemma generate_forecast_before_fit_does_not_raise :
  generate_forecast line_sample 180 (@init line_params)
  = (Ok EmptyDict, init) /\
  forall e, fst (generate_forecast line_sample 180 (@init line_params))
            <> Raise e.
Proof.
  split; [reflexivity|]. intros e. discriminate.
Qed.

Lemma forecast_has_h_consecutive_days_witness :
  (train_model line_optimize slow_history init
   = (Ok true, run_train line_optimize slow_history) /\
   0 < 3 /\
   col_max (map date slow_history) = Some 5 /\
   datetime_min <= 5 /\
   5 + 3 <= datetime_max /\
   exists r self2,
     generate_forecast line_sample 3 (run_train line_optimize slow_history)
     = (Ok (Dict r), self2) /\
     length (predictions r) = Z.to_nat 3 /\
     map p_date (predictions r) = next_days 5 (Z.to_nat 3) /\
     hd_error (map p_date (predictions r)) = Some (5 + 1) /\
     StronglySorted Z.lt (map p_date (predictions r))) /\
  (train_model line_optimize late_history init
   = (Ok true, run_train line_optimize late_history) /\
   col_max (map date late_history) = Some 2932895 /\
   datetime_min <= 2932895 /\
   datetime_max < 2932895 + 3 /\
   fst (generate_forecast line_sample 3 (run_train line_optimize late_history))
   = Ok EmptyDict).
Proof.
  assert (Ht : train_model line_optimize slow_history init
               = (Ok true, run_train line_optimize slow_history))
    by by_evaluation.
  assert (Ht' : train_model line_optimize late_history init
                = (Ok true, run_train line_optimize late_history))
    by by_evaluation.
  assert (Hlo : datetime_min <= 5) by (unfold datetime_min; lia).
  assert (Hhi : 5 + 3 <= datetime_max) by (unfold datetime_max; lia).
  assert (Hlo' : datetime_min <= 2932895) by (unfold datetime_min; lia).
  assert (Hhi' : datetime_max < 2932895 + 3) by (unfold datetime_max; lia).
  split.
  - repeat (split; [assumption || reflexivity || lia|]).
    exact (proj1 (forecast_has_h_consecutive_days
                    line_optimize line_sample slow_history init
                    (run_train line_optimize slow_history) 3 5
                    Ht eq_refl eq_refl Hlo) Hhi).
  - repeat (split; [assumption || reflexivity|]).
    exact (proj2 (forecast_has_h_consecutive_days
                    line_optimize line_sample late_history init
                    (run_train line_optimize late_history) 3 2932895
                    Ht' eq_refl eq_refl Hlo') Hhi').
Defined.

(* C3: two days of history at the end of the calendar and a horizon of 3:
   the training succeeds and, whatever Prophet predicts, the forecast is the
   empty dictionary *)
Lemma forecast_past_calendar_end_is_empty :
  (2 <= length late_history)%nat /\
  fst (train_model line_optimize late_history init) = Ok true /\
  0 < 3 /\
  forall sample : ProphetConfig -> line_params -> list Z -> Z -> Predicted,
    fst (run_forecast line_optimize sample late_history 3) = Ok EmptyDict.
Proof.
  split; [simpl; lia|]. split; [by_evaluation|]. split; [lia|].
  intros sample. by_evaluation.
Qed.



(** C4.  Nothing guards the division by the true value.  Whenever
    validate_model returns its metrics and a held-out true value is zero,
    the MAPE it reports is inf or nan: the point is not excluded.  Already
    the formula gives inf or nan for one zero true value, whatever the other
    held-out points and whatever the predictions, before and after rounding.
    On the series 4, 8, 0, 6 with the last two points held out,
    validate_model reports a MAPE of inf. *)
Theorem mape_unguarded_at_zero :
  (forall (Params : Type)
          (optimize : ProphetConfig -> DataFrame -> option Params)
          (sample : ProphetConfig -> Params -> list Z -> Z -> Predicted)
          (np_sqrt : fnum -> fnum)
          (test_size : Z) (self : NetworkForecaster Params) (td : DataFrame)
          (m : Metrics),
      training_data self = Some td ->
      validate_model optimize sample np_sqrt test_size self = Ok (Dict m) ->
      In 0 (map y (slice_from td (- test_size))) ->
      is_finite (mape m) = false) /\
  (forall (before after : list (Z * Q)) (p : Q),
      is_finite (mape_of (map fst (before ++ (0, p) :: after))
                         (map snd (before ++ (0, p) :: after))) = false /\
      is_finite (py_round2
                   (mape_of (map fst (before ++ (0, p) :: after))
                            (map snd (before ++ (0, p) :: after)))) = false) /\
  exists td m,
    training_data (run_train line_optimize dip_history) = Some td /\
    map y (slice_from td (- 2)) = [0; 6] /\
    validate_model line_optimize line_sample id_sqrt 2
                   (run_train line_optimize dip_history) = Ok (Dict m) /\
    mape m = PInf.
Proof.
  split; [|split].
  - intros Params optimize sample np_sqrt test_size self td m Htd Hv H0.
    destruct (validate_model_mape optimize sample np_sqrt _ _ _ _ Htd Hv)
      as (y_pred & _ & _ & Hzero & _).
    apply (Hzero H0).
  - intros before after p.
    assert (H : not_finite (mape_of (map fst (before ++ (0, p) :: after))
                                    (map snd (before ++ (0, p) :: after)))).
    { apply mape_of_zero_true_value; [now rewrite !length_map|].
      rewrite map_app. apply in_or_app. right. now left. }
    destruct H as [-> | ->]; split; reflexivity.
  - exists_some (training_data (run_train line_optimize dip_history)).
    exists_dict (validate_model line_optimize line_sample id_sqrt 2
                                (run_train line_optimize dip_history)).
    repeat split; by_evaluation.
Qed.

(* with a nonzero last value the percentage is the rounded quotient *)
Lemma milestone_nonzero (e : ForecastRow) (last_value : Z) :
  last_value <> 0 ->
  growth_percentage (milestone e last_value)
  = py_round2 (Fin ((yhat (vals e) - inject_Z last_value)
                    / inject_Z last_value * 100)).
Proof.
  intros H. unfold milestone, of_Z; simpl.
  replace (Qeq_bool (inject_Z last_value) 0) with false; [reflexivity|].
  symmetry. apply not_true_is_false. intros Hq.
  apply Qeq_bool_eq in Hq. unfold Qeq in Hq. simpl in Hq. lia.
Qed.

(** C5.  With a last observed value of zero nothing guards the division:
    whatever the prediction, growth_percentage is inf, -inf or nan and never
    the fallback 0.  On the series 10, 5, 0 with the straight-line model the
    three milestones of a 30-day forecast carry -inf. *)
Theorem growth_percentage_unguarded_at_zero :
  (forall e : ForecastRow,
      is_finite (growth_percentage (milestone e 0)) = false) /\
  exists r self',
    run_forecast line_optimize line_sample falling_history 30
    = (Ok (Dict r), self') /\
    current_vehicles r = 0 /\
    growth_percentage (day_30 r) = NInf /\
    growth_percentage (day_90 r) = NInf /\
    growth_percentage (day_180 r) = NInf.
Proof.
  split.
  - intros e. unfold milestone; simpl.
    destruct (0 ?= yhat (vals e) + - inject_Z 0)%Q; reflexivity.
  - exists_dict_and_state
      (run_forecast line_optimize line_sample falling_history 30).
    repeat split; by_evaluation.
Qed.






(* C8: two records for one date are both kept *)
Lemma prepare_data_keeps_duplicate_dates :
  prepare_data [mkRecord 1 5; mkRecord 1 7] = Ok [mkRow 1 5; mkRow 1 7] /\
  ~ NoDup (map ds [mkRow 1 5; mkRow 1 7]).
Proof.
  split; [reflexivity|].
  intros H. inversion H as [|? ? Hnin _]; subst. apply Hnin. now left.
Qed.

Lemma validate_model_whole_window_witness :
  exists td,
    training_data (run_train line_optimize dip_history) = Some td /\
    Z.of_nat (length td) <= 4 /\
    validate_model line_optimize line_sample id_sqrt 4
                   (run_train line_optimize dip_history) = Ok EmptyDict.
Proof.
  exists_some (training_data (run_train line_optimize dip_history)).
  match goal with
  | |- ?T /\ ?L /\ _ =>
      assert (Ht : T) by by_evaluation;
      assert (Hl : L) by (vm_compute; discriminate)
  end.
  repeat (split; [assumption|]).
  exact (validate_model_whole_window_returns_empty
           line_optimize line_sample id_sqrt 4 _ _ Ht Hl).
Defined.

(* C9: with the window as long as the series the call returns {} *)
Lemma validate_model_whole_window_does_not_raise :
  length dip_history = 4%nat /\
  validate_model line_optimize line_sample id_sqrt 4
                 (run_train line_optimize dip_history) = Ok EmptyDict /\
  forall e, validate_model line_optimize line_sample id_sqrt 4
                           (run_train line_optimize dip_history) <> Raise e.
Proof.
  split; [reflexivity|]. split; [by_evaluation|].
  intros e. vm_compute. discriminate.
Qed.

Lemma train_model_total_not_atomic_witness :
  exists df e m',
    prepare_data [mkRecord 7 3] = Ok df /\
    fit line_optimize (Prophet_init train_config) df = (Raise e, m') /\
    train_model line_optimize [mkRecord 7 3]
                (run_train line_optimize slow_history)
    = (Ok false,
       mkForecaster (Some m') (Some df)
         (forecast_result (run_train line_optimize slow_history))) /\
    params m' = None /\ config m' = train_config.
Proof.
  exists [mkRow 7 3], ValueError, (Prophet_init train_config).
  assert (Hp : prepare_data [mkRecord 7 3] = Ok [mkRow 7 3]) by reflexivity.
  assert (Hf : fit line_optimize (Prophet_init train_config) [mkRow 7 3]
               = (Raise ValueError, Prophet_init train_config))
    by reflexivity.
  repeat (split; [assumption|]).
  exact (proj1 (proj2 (proj2 (train_model_total_not_atomic
                                line_optimize [mkRecord 7 3]
                                (run_train line_optimize slow_history))))
               _ _ _ Hp Hf).
Defined.

(* C10: a fit that fails after preparation does not leave the previous
   model in place *)
Lemma train_model_failure_replaces_model :
  params_fitted (model (run_train line_optimize slow_history)) = true /\
  fst (train_model line_optimize [mkRecord 7 3]
                   (run_train line_optimize slow_history)) = Ok false /\
  training_data (snd (train_model line_optimize [mkRecord 7 3]
                                  (run_train line_optimize slow_history)))
  = Some [mkRow 7 3] /\
  model (snd (train_model line_optimize [mkRecord 7 3]
                          (run_train line_optimize slow_history)))
  = Some (Prophet_init train_config) /\
  model (snd (train_model line_optimize [mkRecord 7 3]
                          (run_train line_optimize slow_history)))
  <> model (run_train line_optimize slow_history).
Proof.
  repeat split; try by_evaluation.
  vm_compute. discriminate.
Qed.

(** * Further properties of the forecaster *)

Section ForecasterFacts.

Context {Params : Type}.
Variable optimize : ProphetConfig -> DataFrame -> option Params.
Variable sample : ProphetConfig -> Params -> list Z -> Z -> Predicted.
Variable np_sqrt : fnum -> fnum.
Variable float_sub : Q -> Q -> Q.
Variable float_mean : list Q -> Q.

(** ** What each method leaves untouched *)

Lemma train_model_keeps_forecast_result (hd : list HistoricalRecord)
    (self : NetworkForecaster Params) :
  forecast_result (snd (train_model optimize hd self)) = forecast_result self.
Proof.
  unfold train_model, train_model_body.
  destruct (prepare_data hd) as [df|e]; [|reflexivity].
  destruct (fit optimize (Prophet_init train_config) df) as [[u|e] m];
    reflexivity.
Qed.

Lemma generate_forecast_state (h : Z) (self : NetworkForecaster Params) :
  model (snd (generate_forecast sample h self)) = model self /\
  training_data (snd (generate_forecast sample h self)) = training_data self.
Proof.
  unfold generate_forecast.
  destruct (model self) as [m|] eqn:Hm; [|simpl; auto].
  unfold generate_forecast_body.
  destruct (make_future_dataframe m h) as [future|e]; [|simpl; auto].
  destruct (predict sample m future) as [forecast|e]; [|simpl; auto].
  destruct (forecast_summary _ _ _); simpl; auto.
Qed.

(** X9.  Training never touches forecast_result and forecasting never
    touches model or training_data.  So after a new train_model, and until
    generate_forecast is called again, get_trend_analysis still analyses the
    forecast frame of the previous model. *)
Theorem methods_frame :
  forall (hd : list HistoricalRecord) (h : Z) (self : NetworkForecaster Params),
    forecast_result (snd (train_model optimize hd self))
    = forecast_result self /\
    get_trend_analysis float_sub float_mean (snd (train_model optimize hd self))
    = get_trend_analysis float_sub float_mean self /\
    model (snd (generate_forecast sample h self)) = model self /\
    training_data (snd (generate_forecast sample h self))
    = training_data self.
Proof.
  intros hd h self.
  pose proof (train_model_keeps_forecast_result hd self) as Hf.
  split; [exact Hf|]. split.
  - unfold get_trend_analysis. now rewrite Hf.
  - apply generate_forecast_state.
Qed.

(** ** The state after a successful training *)

Lemma trained_state (hd : list HistoricalRecord)
    (self self1 : NetworkForecaster Params) :
  train_model optimize hd self = (Ok true, self1) ->
  exists r0 rest m th hdates,
    prepare_data hd = Ok (r0 :: rest) /\
    self1 = mkForecaster (Some m) (Some (r0 :: rest)) (forecast_result self) /\
    params m = Some th /\
    history_dates m = Some hdates /\
    is_max (fold_left Z.max (map ds rest) (ds r0)) hdates /\
    col_max (map date hd) = Some (fold_left Z.max (map ds rest) (ds r0)).
Proof.
  intros Htrain.
  destruct (train_model_success optimize _ _ _ Htrain)
    as (df & m & th & Hprep & Hlen & -> & Hth & Hhist).
  destruct df as [|r0 rest]; [simpl in Hlen; lia|].
  exists r0, rest, m, th, (sort_dates (unique (map ds (r0 :: rest)))).
  assert (HL : is_max (fold_left Z.max (map ds rest) (ds r0))
                      (map ds (r0 :: rest))) by apply fold_left_max_spec.
  repeat split; try assumption.
  - apply sort_dates_In, unique_In, HL.
  - destruct HL as [_ Hall]. rewrite Forall_forall in *. intros z Hz.
    apply Hall. now apply unique_In, sort_dates_In.
  - apply is_max_col_max. revert HL. apply is_max_same_elements.
    now apply prepare_data_dates.
Qed.

Lemma iloc_empty {A} (i : Z) : iloc (@nil A) i = Raise IndexError.
Proof.
  unfold iloc. simpl.
  destruct (i <? 0) eqn:E.
  - replace (i + 0 <? 0) with true; [reflexivity|].
    symmetry. apply Z.ltb_lt. apply Z.ltb_lt in E. lia.
  - rewrite E. simpl.
    replace (0 <=? i) with true; [reflexivity|].
    symmetry. apply Z.leb_le. apply Z.ltb_ge in E. lia.
Qed.

Lemma nonpositive_horizon_empty (hd : list HistoricalRecord)
    (self self1 : NetworkForecaster Params) (h : Z) :
  train_model optimize hd self = (Ok true, self1) ->
  h <= 0 ->
  fst (generate_forecast sample h self1) = Ok EmptyDict.
Proof.
  intros Htrain Hh.
  destruct (trained_state _ _ _ Htrain)
    as (r0 & rest & m & th & hdates & _ & -> & Hth & Hhist & Hmax & _).
  set (L := fold_left Z.max (map ds rest) (ds r0)) in *.
  unfold generate_forecast, generate_forecast_body.
  cbn [model training_data forecast_result].
  unfold make_future_dataframe. rewrite Hhist, (is_max_col_max _ _ Hmax).
  destruct (h + 1 <? 0) eqn:Hneg; [reflexivity|].
  apply Z.ltb_ge in Hneg.
  destruct (Timestamp_max_day <? L + h); [reflexivity|].
  assert (Hfut : slice_to (filter (fun d => L <? d)
                             (date_range L (Z.to_nat (h + 1)))) h = []).
  { assert (Hcases : h = 0 \/ h = -1) by lia.
    destruct Hcases as [-> | ->]; simpl.
    - replace (L <? L + 0) with false by (symmetry; apply Z.ltb_ge; lia).
      reflexivity.
    - reflexivity. }
  rewrite Hfut, app_nil_r.
  unfold predict. rewrite Hth.
  destruct hdates as [|d0 hdates'] eqn:Ehd; [reflexivity|]. rewrite <- Ehd.
  unfold forecast_summary. fold L. cbv zeta.
  rewrite filter_map_comm, filter_none.
  - cbn [map predictions_of bind]. rewrite iloc_empty. reflexivity.
  - destruct Hmax as [_ Hall]. rewrite <- Ehd in Hall.
    eapply Forall_impl; [|exact Hall].
    simpl. intros d Hd. now apply Z.ltb_ge.
Qed.

(** X1.  After a successful training, generate_forecast with a horizon
    that is zero or negative returns the empty dictionary: there is no
    future row, and taking the milestone rows fails inside the try block. *)
Theorem generate_forecast_nonpositive_horizon :
  forall (hd : list HistoricalRecord) (self self1 : NetworkForecaster Params)
         (h : Z),
    train_model optimize hd self = (Ok true, self1) ->
    h <= 0 ->
    fst (generate_forecast sample h self1) = Ok EmptyDict.
Proof.
  intros hd self self1 h Htrain Hh.
  exact (nonpositive_horizon_empty hd self self1 h Htrain Hh).
Qed.

(** ** Milestones *)

Lemma iloc_nth {A} (l : list A) (i : Z) (a : A) :
  iloc l i = Ok a ->
  nth_error l (Z.to_nat (if i <? 0 then i + Z.of_nat (length l) else i))
  = Some a.
Proof.
  unfold iloc.
  destruct ((_ <? 0) || (_ <=? _)); [discriminate|].
  destruct (nth_error l _) as [x|]; [|discriminate].
  now intros [= ->].
Qed.

(* the three rows the milestones are read from *)
Lemma generate_forecast_milestones (h : Z)
    (self self' : NetworkForecaster Params) (r : ForecastDict) :
  generate_forecast sample h self = (Ok (Dict r), self') ->
  exists future_forecast e30 e90 e180,
    predictions r = map to_prediction future_forecast /\
    iloc future_forecast (Z.min 29 (Z.of_nat (length future_forecast) - 1))
    = Ok e30 /\
    iloc future_forecast (Z.min 89 (Z.of_nat (length future_forecast) - 1))
    = Ok e90 /\
    (if 180 <=? Z.of_nat (length future_forecast)
     then iloc future_forecast
               (Z.min 179 (Z.of_nat (length future_forecast) - 1))
     else iloc future_forecast (-1)) = Ok e180 /\
    day_30 r = milestone e30 (current_vehicles r) /\
    day_90 r = milestone e90 (current_vehicles r) /\
    day_180 r = milestone e180 (current_vehicles r) /\
    avg_daily_growth r
    = py_int ((yhat (vals e90) - inject_Z (current_vehicles r)) / 90).
Proof.
  intros Hg.
  destruct (generate_forecast_inv sample _ _ _ _ Hg)
    as (forecast & r0 & rest & _ & _ & Hs).
  destruct (forecast_summary_inv _ _ _ _ _ Hs)
    as (ff & e30 & e90 & e180 & _ & Hp & _ & H30 & H90 & H180 & _ & _ & _
        & Hd30 & Hd90 & Hd180 & Havg).
  exists ff, e30, e90, e180. now repeat split.
Qed.

Lemma nth_error_prediction (ff : list ForecastRow) (k : nat) (e : ForecastRow) :
  nth_error ff k = Some e ->
  option_map predicted_vehicles (nth_error (map to_prediction ff) k)
  = Some (py_int (yhat (vals e))).
Proof.
  intros H. now rewrite nth_error_map, H.
Qed.

(** X2.  The 30-, 90- and 180-day milestones are read from the
    predictions numbered 30, 90 and 180, clipped to the last prediction when
    the horizon is shorter: with n predictions, the predicted_vehicles of
    the k-day milestone is that of the prediction at index min(k-1, n-1). *)
Theorem milestones_read_clipped_predictions :
  forall (h : Z) (self self' : NetworkForecaster Params) (r : ForecastDict),
    generate_forecast sample h self = (Ok (Dict r), self') ->
    (0 < length (predictions r))%nat /\
    option_map predicted_vehicles
      (nth_error (predictions r) (Nat.min 29 (length (predictions r) - 1)))
    = Some (m_predicted_vehicles (day_30 r)) /\
    option_map predicted_vehicles
      (nth_error (predictions r) (Nat.min 89 (length (predictions r) - 1)))
    = Some (m_predicted_vehicles (day_90 r)) /\
    option_map predicted_vehicles
      (nth_error (predictions r) (Nat.min 179 (length (predictions r) - 1)))
    = Some (m_predicted_vehicles (day_180 r)).
Proof.
  intros h self self' r Hg.
  destruct (generate_forecast_milestones _ _ _ _ Hg)
    as (ff & e30 & e90 & e180 & Hp & H30 & H90 & H180 & -> & -> & -> & _).
  rewrite Hp, length_map.
  assert (Hn : (0 < length ff)%nat).
  { destruct ff; [|simpl; lia]. now rewrite iloc_empty in H30. }
  apply iloc_nth in H30. apply iloc_nth in H90.
  assert (H180' : nth_error ff (Nat.min 179 (length ff - 1)) = Some e180).
  { destruct (Z.leb_spec 180 (Z.of_nat (length ff))) as [Hle|Hlt];
      apply iloc_nth in H180.
    - replace (Z.min 179 _ <? 0) with false in H180
        by (symmetry; apply Z.ltb_ge; lia).
      cbv iota in H180.
      replace (Z.to_nat _) with (Nat.min 179 (length ff - 1)) in H180 by lia.
      exact H180.
    - change (-1 <? 0) with true in H180. cbv iota in H180.
      replace (Z.to_nat _) with (Nat.min 179 (length ff - 1)) in H180 by lia.
      exact H180. }
  replace (Z.min 29 _ <? 0) with false in H30
    by (symmetry; apply Z.ltb_ge; lia).
  replace (Z.min 89 _ <? 0) with false in H90
    by (symmetry; apply Z.ltb_ge; lia).
  cbv iota in H30, H90.
  replace (Z.to_nat _) with (Nat.min 29 (length ff - 1)) in H30 by lia.
  replace (Z.to_nat _) with (Nat.min 89 (length ff - 1)) in H90 by lia.
  split; [exact Hn|].
  split; [|split]; simpl; now apply nth_error_prediction.
Qed.

(** X3.  With at most 30 predictions the three milestones are the same
    entry: all of them describe the last prediction. *)
Theorem short_horizon_milestones_coincide :
  forall (h : Z) (self self' : NetworkForecaster Params) (r : ForecastDict),
    generate_forecast sample h self = (Ok (Dict r), self') ->
    (length (predictions r) <= 30)%nat ->
    day_30 r = day_90 r /\ day_90 r = day_180 r /\
    option_map predicted_vehicles (last_error (predictions r))
    = Some (m_predicted_vehicles (day_180 r)).
Proof.
  intros h self self' r Hg Hlen.
  destruct (generate_forecast_milestones _ _ _ _ Hg)
    as (ff & e30 & e90 & e180 & Hp & H30 & H90 & H180 & -> & -> & -> & _).
  rewrite Hp, length_map in Hlen.
  assert (Hn : (0 < length ff)%nat).
  { destruct ff; [|simpl; lia]. now rewrite iloc_empty in H30. }
  replace (180 <=? Z.of_nat (length ff)) with false in H180
    by (symmetry; apply Z.leb_gt; lia).
  apply iloc_nth in H30. apply iloc_nth in H90. apply iloc_nth in H180.
  replace (Z.min 29 _ <? 0) with false in H30
    by (symmetry; apply Z.ltb_ge; lia).
  replace (Z.min 89 _ <? 0) with false in H90
    by (symmetry; apply Z.ltb_ge; lia).
  cbv iota in H30, H90.
  change (-1 <? 0) with true in H180. cbv iota in H30, H90, H180.
  replace (Z.to_nat _) with (length ff - 1)%nat in H30 by lia.
  replace (Z.to_nat _) with (length ff - 1)%nat in H90 by lia.
  replace (Z.to_nat _) with (length ff - 1)%nat in H180 by lia.
  assert (e30 = e90) by congruence. assert (e90 = e180) by congruence.
  subst e30 e90.
  split; [reflexivity|]. split; [reflexivity|].
  rewrite Hp. unfold last_error.
  rewrite length_map. rewrite nth_error_map, H180. reflexivity.
Qed.

(** ** The current date and value of a forecast *)

Lemma generate_forecast_current (h : Z)
    (self self' : NetworkForecaster Params) (r : ForecastDict) :
  generate_forecast sample h self = (Ok (Dict r), self') ->
  exists r0 rest,
    training_data self = Some (r0 :: rest) /\
    current_date r = fold_left Z.max (map ds rest) (ds r0) /\
    current_vehicles r = y (last rest r0) /\
    forecast_horizon r = h.
Proof.
  intros Hg.
  destruct (generate_forecast_inv sample _ _ _ _ Hg)
    as (forecast & r0 & rest & _ & Htd & Hs).
  destruct (forecast_summary_inv _ _ _ _ _ Hs)
    as (ff & e30 & e90 & e180 & _ & _ & _ & _ & _ & _ & Hh & Hd & Hv & _).
  exists r0, rest. now repeat split.
Qed.

Lemma last_In {A} (l : list A) (a d : A) : In (last (a :: l) d) (a :: l).
Proof.
  revert a. induction l as [|x l IH]; intros a; [now left|].
  right. apply (IH x).
Qed.

Lemma last_cons_default {A} (l : list A) (a d : A) :
  last (a :: l) d = last l a.
Proof.
  revert a d. induction l as [|x l IH]; intros a d; [reflexivity|].
  change (last (a :: x :: l) d) with (last (x :: l) d).
  now rewrite !IH.
Qed.

Lemma sorted_last_is_max (l : list Z) (a d : Z) :
  StronglySorted Z.le (a :: l) -> is_max (last (a :: l) d) (a :: l).
Proof.
  intros Hs. split; [apply last_In|].
  revert a Hs. induction l as [|x l IH]; intros a Hs.
  - repeat constructor. simpl. lia.
  - inversion Hs as [|? ? Hs' Hall]; subst.
    specialize (IH x Hs').
    change (last (a :: x :: l) d) with (last (x :: l) d).
    constructor; [|exact IH].
    inversion Hall as [|? ? Hax _]; subst.
    inversion IH as [|? ? Hx _]; subst. lia.
Qed.

Lemma prepare_data_sorted (hd : list HistoricalRecord) (df : DataFrame) :
  prepare_data hd = Ok df -> StronglySorted Z.le (map ds df).
Proof.
  destruct hd as [|a hd]; [discriminate|].
  unfold prepare_data. intros [= <-].
  apply (sort_values_sorted
           (map (fun r => mkRow (date r) (total_vehicles r)) (a :: hd))).
Qed.

Lemma prepare_data_perm (hd : list HistoricalRecord) (df : DataFrame) :
  prepare_data hd = Ok df ->
  Permutation (map (fun r => mkRow (date r) (total_vehicles r)) hd) df.
Proof.
  destruct hd as [|a hd]; [discriminate|].
  unfold prepare_data. intros [= <-].
  apply (sort_values_perm
           (map (fun r => mkRow (date r) (total_vehicles r)) (a :: hd))).
Qed.

(** X4.  Whatever the order of the input records, after a successful
    training the forecast reports as current_date the largest input date and
    as current_vehicles the count of an input record carrying that date. *)
Theorem forecast_current_is_latest_record :
  forall (hd : list HistoricalRecord) (self self1 self2 : NetworkForecaster Params)
         (h : Z) (r : ForecastDict),
    train_model optimize hd self = (Ok true, self1) ->
    generate_forecast sample h self1 = (Ok (Dict r), self2) ->
    forecast_horizon r = h /\
    col_max (map date hd) = Some (current_date r) /\
    exists rec,
      In rec hd /\ date rec = current_date r /\
      total_vehicles rec = current_vehicles r.
Proof.
  intros hd self self1 self2 h r Htrain Hg.
  destruct (trained_state _ _ _ Htrain)
    as (r0 & rest & m & th & hdates & Hprep & -> & _ & _ & _ & Hmax).
  destruct (generate_forecast_current _ _ _ _ Hg)
    as (r0' & rest' & Htd & Hd & Hv & Hh).
  simpl in Htd. injection Htd as <- <-.
  split; [exact Hh|]. split; [now rewrite Hd|].
  set (x := last rest r0) in *.
  assert (Hx : x = last (r0 :: rest) r0)
    by (unfold x; now rewrite last_cons_default).
  assert (Hsorted : StronglySorted Z.le (map ds (r0 :: rest))).
  { now apply (prepare_data_sorted hd). }
  assert (Hin : In x (r0 :: rest)) by (rewrite Hx; apply last_In).
  assert (Hdate : ds x = current_date r).
  { rewrite Hd. apply (is_max_unique (map ds (r0 :: rest))).
    - pose proof (sorted_last_is_max (map ds rest) (ds r0) (ds r0) Hsorted)
        as Hm.
      replace (last (ds r0 :: map ds rest) (ds r0)) with (ds x) in Hm;
        [exact Hm|].
      rewrite Hx. change (ds r0 :: map ds rest) with (map ds (r0 :: rest)).
      generalize (r0 :: rest). intros l.
      induction l as [|a [|b l] IH]; try reflexivity. exact IH.
    - apply fold_left_max_spec. }
  assert (Hin' : In x (map (fun r => mkRow (date r) (total_vehicles r)) hd)).
  { eapply Permutation_in; [symmetry; apply (prepare_data_perm _ _ Hprep)|].
    exact Hin. }
  apply in_map_iff in Hin'. destruct Hin' as (rec & Hrec & Hrin).
  exists rec. split; [exact Hrin|].
  rewrite <- Hdate, Hv, <- Hrec. now split.
Qed.

(** ** Growth from the current value *)

Lemma Qfloor_unique (q : Q) (k : Z) :
  (inject_Z k <= q)%Q -> (q < inject_Z (k + 1))%Q -> Qfloor q = k.
Proof.
  intros H1 H2.
  pose proof (Qfloor_le q) as F1. pose proof (Qlt_floor q) as F2.
  assert (A : (inject_Z (Qfloor q) < inject_Z (k + 1))%Q) by lra.
  assert (B : (inject_Z k < inject_Z (Qfloor q + 1))%Q) by lra.
  rewrite <- Zlt_Qlt in A, B. lia.
Qed.

Lemma Qfloor_minus_Z (q : Q) (z : Z) :
  Qfloor (q - inject_Z z) = Qfloor q - z.
Proof.
  apply Qfloor_unique.
  - unfold Z.sub. rewrite inject_Z_plus, inject_Z_opp.
    pose proof (Qfloor_le q). lra.
  - replace (Qfloor q - z + 1) with ((Qfloor q + 1) + - z) by lia.
    rewrite inject_Z_plus, inject_Z_opp.
    pose proof (Qlt_floor q). lra.
Qed.

Lemma py_int_growth (yh : Q) (last_value : Z) :
  0 <= last_value <= py_int yh ->
  py_int (yh - inject_Z last_value) = py_int yh - last_value.
Proof.
  intros [H0 H1].
  destruct (Qlt_le_dec yh 0) as [Hneg | Hpos].
  - (* a negative prediction truncates to 0, so the last value is 0 *)
    rewrite (py_int_nonpos yh) in * by lra.
    assert (Hc : Qceiling yh <= 0).
    { change 0 with (Qceiling 0). apply Qceiling_resp_le. lra. }
    assert (last_value = 0) by lia. subst last_value.
    rewrite py_int_nonpos by (change (inject_Z 0) with 0%Q; lra).
    rewrite Z.sub_0_r. apply Qceiling_comp.
    change (inject_Z 0) with 0%Q. ring.
  - rewrite (py_int_nonneg yh) in * by lra.
    assert (Hle : (inject_Z last_value <= yh)%Q).
    { pose proof (Qfloor_le yh). rewrite Zle_Qle in H1. lra. }
    rewrite py_int_nonneg by lra.
    apply Qfloor_minus_Z.
Qed.

(** X5.  A milestone's growth_from_current is predicted_vehicles minus
    current_vehicles whenever the current value is not negative and the
    milestone's predicted_vehicles is not below it (both are truncated
    separately, so this needs an argument). *)
Theorem growth_from_current_is_difference :
  forall (h : Z) (self self' : NetworkForecaster Params) (r : ForecastDict)
         (ms : Milestone),
    generate_forecast sample h self = (Ok (Dict r), self') ->
    ms = day_30 r \/ ms = day_90 r \/ ms = day_180 r ->
    0 <= current_vehicles r <= m_predicted_vehicles ms ->
    growth_from_current ms = m_predicted_vehicles ms - current_vehicles r.
Proof.
  intros h self self' r ms Hg Hms Hle.
  destruct (generate_forecast_milestones _ _ _ _ Hg)
    as (ff & e30 & e90 & e180 & _ & _ & _ & _ & E30 & E90 & E180 & _).
  assert (Hm : exists e, ms = milestone e (current_vehicles r)).
  { destruct Hms as [-> | [-> | ->]]; eauto. }
  destruct Hm as (e & ->). simpl in *.
  now apply py_int_growth.
Qed.

(** ** Validation: the split and the absolute error *)

Lemma slice_to_back {A} (l : list A) (t : Z) :
  0 < t -> slice_to l (- t) = firstn (length l - Z.to_nat t) l.
Proof.
  intros Ht. unfold slice_to, clip_index.
  replace (- t <? 0) with true by (symmetry; apply Z.ltb_lt; lia).
  f_equal. lia.
Qed.

Lemma slice_to_zero {A} (l : list A) : slice_to l (- 0) = [].
Proof.
  unfold slice_to, clip_index. change (- 0 <? 0) with false. cbv iota.
  replace (Z.to_nat _) with 0%nat by lia. reflexivity.
Qed.

Lemma slice_from_back {A} (l : list A) (t : Z) :
  0 < t -> slice_from l (- t) = skipn (length l - Z.to_nat t) l.
Proof.
  intros Ht. unfold slice_from, clip_index.
  replace (- t <? 0) with true by (symmetry; apply Z.ltb_lt; lia).
  f_equal. lia.
Qed.

(** X6.  validate_model returns the empty dictionary whenever fewer than
    two rows are left for fitting: for a test size of 0 (the slice [:-0] is
    empty), and for 0 < test_size with len(training_data) < test_size + 2. *)
Theorem validate_model_short_prefix_returns_empty :
  forall (test_size : Z) (self : NetworkForecaster Params) (td : DataFrame),
    training_data self = Some td ->
    test_size = 0 \/
    (0 < test_size /\ Z.of_nat (length td) < test_size + 2) ->
    validate_model optimize sample np_sqrt test_size self = Ok EmptyDict.
Proof.
  intros t self td Htd Hshort. unfold validate_model. rewrite Htd.
  destruct (model self); [|reflexivity].
  unfold validate_model_body.
  assert (Hlen : (length (slice_to td (- t)) < 2)%nat).
  { destruct Hshort as [-> | [Ht Hl]].
    - rewrite slice_to_zero. simpl. lia.
    - rewrite slice_to_back by assumption. rewrite length_firstn. lia. }
  unfold fit. apply Nat.ltb_lt in Hlen. rewrite Hlen. reflexivity.
Qed.

Lemma fold_left_Qplus_nonneg (l : list Q) (acc : Q) :
  Forall (fun q => 0 <= q)%Q l -> (0 <= acc)%Q ->
  (0 <= fold_left Qplus l acc)%Q.
Proof.
  revert acc. induction l as [|x l IH]; intros acc Hl Hacc; simpl.
  - assumption.
  - inversion Hl; subst. apply IH; [assumption|]. lra.
Qed.

Lemma round_half_even_nonneg (q : Q) : (0 <= q)%Q -> 0 <= round_half_even q.
Proof.
  intros H. unfold round_half_even.
  assert (0 <= Qfloor q).
  { change 0 with (Qfloor 0). now apply Qfloor_resp_le. }
  destruct (q - inject_Z (Qfloor q) ?= 1 # 2)%Q; [destruct (Z.even _)| |]; lia.
Qed.

Lemma py_round2_nonneg (q : Q) :
  (0 <= q)%Q -> exists q', py_round2 (Fin q) = Fin q' /\ (0 <= q')%Q.
Proof.
  intros H. eexists. split; [reflexivity|].
  assert (Hr : 0 <= round_half_even (q * 100)).
  { apply round_half_even_nonneg. nra. }
  rewrite Zle_Qle in Hr. change (inject_Z 0) with 0%Q in Hr.
  apply Qle_shift_div_l; lra.
Qed.

Lemma mean_absolute_error_nonneg (y_true : list Z) (y_pred : list Q) :
  y_true <> [] -> length y_true = length y_pred ->
  exists q, mean_absolute_error y_true y_pred = Fin q /\ (0 <= q)%Q.
Proof.
  intros Hne Hlen. unfold mean_absolute_error, np_mean, fsum, errors.
  set (g := fun tp : Z * Q => Qabs (inject_Z (fst tp) - snd tp)).
  assert (E : map fabs (map (fun tp : Z * Q =>
                               fsub (of_Z (fst tp)) (Fin (snd tp)))
                            (combine y_true y_pred))
              = map Fin (map g (combine y_true y_pred))).
  { rewrite !map_map. apply map_ext. intros [t p]. reflexivity. }
  rewrite E, fold_fadd_finite, !length_map.
  unfold of_Z, fdiv. rewrite inject_Z_pos_nonzero.
  - eexists. split; [reflexivity|].
    apply Qle_shift_div_l.
    + destruct y_true; [congruence|]. destruct y_pred; [discriminate|].
      simpl length. rewrite <- (Zlt_Qlt 0). lia.
    + rewrite Qmult_0_l. apply fold_left_Qplus_nonneg; [|lra].
      rewrite Forall_forall. intros q Hq. apply in_map_iff in Hq.
      destruct Hq as (tp & <- & _). apply Qabs_nonneg.
  - destruct y_true; [congruence|]. destruct y_pred; [discriminate|].
    simpl; lia.
Qed.

(** X7.  With a model present, 0 < test_size and at least two rows left
    before the last test_size rows, validate_model answers with metrics as
    soon as the optimiser converges on that prefix (the only rows it is
    given); the metrics carry the requested test size and a finite,
    non-negative mean absolute error. *)
Theorem validate_model_metrics :
  forall (test_size : Z) (self : NetworkForecaster Params) (td : DataFrame)
         (th : Params),
    model self <> None ->
    training_data self = Some td ->
    0 < test_size ->
    test_size + 2 <= Z.of_nat (length td) ->
    optimize validation_config (firstn (length td - Z.to_nat test_size) td)
    = Some th ->
    exists m q,
      validate_model optimize sample np_sqrt test_size self = Ok (Dict m) /\
      test_size_used m = test_size /\
      mae m = Fin q /\ (0 <= q)%Q.
Proof.
  intros t self td th Hm Htd Ht Hlen Hopt.
  unfold validate_model. rewrite Htd.
  destruct (model self); [clear Hm | congruence].
  unfold validate_model_body.
  rewrite slice_to_back, slice_from_back by assumption.
  set (train := firstn (length td - Z.to_nat t) td) in *.
  set (test := skipn (length td - Z.to_nat t) td).
  assert (Htrain : (length train <? 2)%nat = false).
  { apply Nat.ltb_ge. unfold train. rewrite length_firstn. lia. }
  assert (Htest : length test = Z.to_nat t).
  { unfold test. rewrite length_skipn. lia. }
  unfold fit. rewrite Htrain. cbn [config Prophet_init]. rewrite Hopt.
  unfold predict. cbn [params config].
  destruct (map ds test) as [|d0 dates] eqn:Hdates.
  { apply (f_equal (@length Z)) in Hdates. rewrite length_map in Hdates.
    simpl in Hdates. lia. }
  rewrite <- Hdates. simpl bind.
  set (y_pred := map _ (map _ (map ds test))).
  destruct (mean_absolute_error_nonneg (map y test) y_pred)
    as (q & Hq & Hq0).
  { intros E. apply (f_equal (@length Z)) in E. rewrite length_map in E.
    simpl in E. lia. }
  { unfold y_pred. now rewrite !length_map. }
  destruct (py_round2_nonneg q Hq0) as (q' & Hq' & Hq'0).
  eexists. exists q'. split; [reflexivity|]. simpl.
  split; [reflexivity|]. rewrite Hq. now split.
Qed.

(** ** Trend analysis: finiteness *)

Lemma pd_mean_finite (l : list fnum) :
  Forall finite_or_nan l -> Exists (fun x => is_finite x = true) l ->
  exists q, pd_mean float_mean l = Fin q.
Proof.
  intros Hall Hex. unfold pd_mean.
  assert (E : exists qs, filter notna l = map Fin qs /\ qs <> []).
  { induction l as [|x l IH]; [inversion Hex|].
    inversion Hall as [|? ? Hx Hl]; subst.
    destruct Hx as [-> | (q & ->)]; simpl.
    - inversion Hex as [? ? Hf | ? ? Hf]; subst; [discriminate|]. auto.
    - destruct (Exists_dec (fun x => is_finite x = true) l) as [He | He].
      + intros y. destruct (is_finite y); [now left | now right].
      + destruct (IH Hl He) as (qs & -> & _). exists (q :: qs).
        split; [reflexivity | discriminate].
      + exists [q]. split; [|discriminate]. simpl. f_equal.
        apply filter_none. rewrite Forall_forall in *. intros y Hy.
        destruct (Hl y Hy) as [-> | (q' & ->)]; [reflexivity|].
        exfalso. apply He, Exists_exists. exists (Fin q'). now split. }
  destruct E as (qs & -> & Hne).
  destruct qs as [|q qs]; [congruence|].
  change (map Fin (q :: qs)) with (Fin q :: map Fin qs).
  cbv iota. cbn [finite_values]. rewrite finite_values_Fin.
  eexists; reflexivity.
Qed.

Lemma changes_finite (prev : Q) (l : list Q) :
  Forall (fun x => is_finite x = true) (map Fin (changes float_sub prev l)).
Proof.
  rewrite Forall_map. apply Forall_forall. reflexivity.
Qed.

Lemma is_finite_finite_or_nan (x : fnum) : is_finite x = true -> finite_or_nan x.
Proof.
  destruct x; try discriminate. intros _. right. eauto.
Qed.

(** X8.  On a forecast frame with at least two rows, every number of the
    trend analysis is finite: the means skip the first row's missing change
    and the momentum is guarded against a zero historical mean. *)
Theorem trend_analysis_is_finite :
  forall (self : NetworkForecaster Params) (fr : list ForecastRow),
    forecast_result self = Some fr ->
    (2 <= length fr)%nat ->
    exists a,
      get_trend_analysis float_sub float_mean self = Ok (Dict a) /\
      is_finite (avg_daily_trend_change a) = true /\
      is_finite (recent_30day_trend a) = true /\
      is_finite (historical_30day_trend a) = true /\
      is_finite (growth_momentum a) = true.
Proof.
  intros self fr Hfr Hlen. unfold get_trend_analysis. rewrite Hfr.
  destruct fr as [|r1 [|r2 fr]]; try (simpl in Hlen; lia).
  set (dc := daily_change_of float_sub (r1 :: r2 :: fr)).
  assert (Hdc : exists c cs, dc = NaN :: Fin c :: cs /\
                             Forall (fun x => is_finite x = true) cs).
  { unfold dc, daily_change_of, diff. simpl.
    do 2 eexists. split; [reflexivity | apply changes_finite]. }
  destruct Hdc as (c & cs & Edc & Hcs).
  assert (Hall : Forall finite_or_nan dc).
  { rewrite Edc. constructor; [now left|]. constructor; [right; eauto|].
    eapply Forall_impl; [|exact Hcs]. apply is_finite_finite_or_nan. }
  assert (Havg : exists q, pd_mean float_mean dc = Fin q).
  { apply pd_mean_finite; [exact Hall|]. rewrite Edc.
    apply Exists_cons_tl, Exists_cons_hd. reflexivity. }
  assert (Hhist : exists q, pd_mean float_mean (head 30 dc) = Fin q).
  { apply pd_mean_finite.
    - unfold head. rewrite <- (firstn_skipn 30 dc) in Hall.
      now apply Forall_app in Hall.
    - rewrite Edc. unfold head. simpl.
      apply Exists_cons_tl, Exists_cons_hd. reflexivity. }
  assert (Hrec : exists q, pd_mean float_mean (tail 30 dc) = Fin q).
  { apply pd_mean_finite.
    - unfold tail. now apply Forall_skipn.
    - unfold tail. rewrite Edc.
      set (k := (length (NaN :: Fin c :: cs) - 30)%nat).
      assert (Hk : (k <= length cs)%nat) by (unfold k; simpl; lia).
      destruct k as [|k].
      + simpl. apply Exists_cons_tl, Exists_cons_hd. reflexivity.
      + simpl. destruct k as [|k].
        * apply Exists_cons_hd. reflexivity.
        * simpl.
          assert (Hs : Forall (fun x => is_finite x = true) (skipn k cs))
            by now apply Forall_skipn.
          destruct (skipn k cs) as [|z zs] eqn:Ez.
          { apply (f_equal (@length fnum)) in Ez.
            rewrite length_skipn in Ez. simpl in Ez, Hk. lia. }
          inversion Hs; subst. now apply Exists_cons_hd. }
  destruct Havg as (qa & Ha). destruct Hhist as (qh & Hh).
  destruct Hrec as (qr & Hr).
  cbv zeta. fold dc. rewrite Ha, Hh, Hr.
  eexists. split; [reflexivity|].
  cbn [avg_daily_trend_change recent_30day_trend historical_30day_trend
       growth_momentum py_round2 is_finite fnonzero].
  repeat split.
  destruct (Qeq_bool qh 0) eqn:Eq; simpl; [reflexivity|].
  rewrite Eq. reflexivity.
Qed.

End ForecasterFacts.

(** * prepare_data on input that is already in order *)

Lemma sort_values_sorted_input (l : DataFrame) :
  StronglySorted Z.lt (map ds l) -> sort_values l = l.
Proof.
  induction l as [|r l IH]; intros H; [reflexivity|].
  inversion H as [|? ? Hs Hall]; subst. simpl. rewrite (IH Hs).
  destruct l as [|x l]; [reflexivity|]. simpl.
  inversion Hall as [|? ? Hlt _]; subst.
  replace (ds r <=? ds x) with true by (symmetry; apply Z.leb_le; lia).
  reflexivity.
Qed.

Lemma prepare_data_keeps_rows_in_order (hd : list HistoricalRecord) :
  hd <> [] ->
  StronglySorted Z.lt (map date hd) ->
  prepare_data hd = Ok (map (fun r => mkRow (date r) (total_vehicles r)) hd).
Proof.
  intros Hne Hs.
  destruct hd as [|a hd]; [congruence|].
  unfold prepare_data. f_equal.
  apply sort_values_sorted_input.
  rewrite map_map. exact Hs.
Qed.

(** X13.  On a non-empty input whose dates are strictly increasing,
    prepare_data changes nothing: the frame holds the input rows in the
    input order. *)
Theorem prepare_data_keeps_sorted_input :
  forall hd : list HistoricalRecord,
    hd <> [] ->
    StronglySorted Z.lt (map date hd) ->
    prepare_data hd
    = Ok (map (fun r => mkRow (date r) (total_vehicles r)) hd).
Proof.
  intros hd Hne Hs. now apply prepare_data_keeps_rows_in_order.
Qed.

(** * The simulated history *)

Section SimulationFacts.

Variable api_total : option Z.
Variable randint : nat -> Z.
Variable today : Z.

(* the list built by the loop, before the closing log line *)
Lemma simulation_entries (days : Z) (l : list DailyMetric) :
  dimo_client.get_historical_data_simulation api_total randint today days
  = Ok l ->
  0 < days /\
  exists starting_total,
    100000 <= starting_total /\
    l = map (fun i => mkDailyMetric
                        (today - (days - Z.of_nat i - 1))
                        (starting_total + Z.of_nat i * 150 + randint i)
                        (150 + randint i))
            (seq 0 (Z.to_nat days)).
Proof.
  unfold dimo_client.get_historical_data_simulation, base_daily_growth.
  cbv zeta.
  set (cur := match api_total with
              | Some t => if t =? 0 then 140000 else t
              | None => 140000
              end).
  set (start := Z.max 100000 (cur - days * 150)).
  destruct (Z.to_nat days) as [|n] eqn:En; [discriminate|].
  rewrite <- En. intros H.
  split; [lia|]. exists start. split; [unfold start; lia|].
  destruct (map _ (seq 0 (Z.to_nat days))) eqn:E.
  - rewrite En in E. discriminate.
  - now injection H as <-.
Qed.

Lemma simulation_returns (days : Z) :
  0 < days ->
  exists l,
    dimo_client.get_historical_data_simulation api_total randint today days
    = Ok l /\
    length l = Z.to_nat days.
Proof.
  intros H. unfold dimo_client.get_historical_data_simulation. cbv zeta.
  destruct (Z.to_nat days) as [|n] eqn:En; [lia|].
  rewrite <- En. destruct (map _ (seq 0 (Z.to_nat days))) as [|m l] eqn:E.
  - rewrite En in E. discriminate.
  - eexists. split; [reflexivity|].
    rewrite <- E. now rewrite length_map, length_seq.
Qed.

(** X10.  The simulation raises IndexError (from its closing log line,
    which reads the first entry) when days is zero or negative.  When days
    is positive and the first day to generate, today-days+1, is a date of
    the calendar (0001-01-01 or later, which the subtraction of the days
    from the clock reading needs), it returns exactly [days] entries. *)
Theorem simulation_length :
  forall days : Z,
    (days <= 0 ->
     dimo_client.get_historical_data_simulation api_total randint today days
     = Raise IndexError) /\
    (0 < days ->
     datetime_min <= today - days + 1 ->
     today <= datetime_max ->
     exists l,
       dimo_client.get_historical_data_simulation api_total randint today days
       = Ok l /\
       length l = Z.to_nat days /\
       Forall (fun m => formattable (sim_date m)) l).
Proof.
  intros days. split; intros H.
  - unfold dimo_client.get_historical_data_simulation. cbv zeta.
    replace (Z.to_nat days) with 0%nat by lia. reflexivity.
  - intros Hlo Hhi.
    destruct (simulation_returns days H) as (l & Hl & Hlen).
    exists l. split; [exact Hl|]. split; [exact Hlen|].
    destruct (simulation_entries _ _ Hl) as (_ & s & _ & ->).
    rewrite Forall_map. apply Forall_forall. intros i Hi.
    apply in_seq in Hi. cbn [sim_date]. unfold formattable. lia.
Qed.

Lemma simulation_date_list (days : Z) (l : list DailyMetric) :
  dimo_client.get_historical_data_simulation api_total randint today days
  = Ok l ->
  map sim_date l = next_days (today - days) (Z.to_nat days).
Proof.
  intros H. destruct (simulation_entries _ _ H) as (Hd & s & _ & ->).
  unfold next_days. rewrite <- seq_shift, !map_map.
  apply map_ext. intros i. simpl. lia.
Qed.

(** X11.  The simulated entries are dated on consecutive days, one per
    day, the last one on the day of the call: the dates are
    today-days+1, ..., today. *)
Theorem simulation_dates :
  forall (days : Z) (l : list DailyMetric),
    dimo_client.get_historical_data_simulation api_total randint today days
    = Ok l ->
    map sim_date l = next_days (today - days) (Z.to_nat days) /\
    option_map sim_date (last_error l) = Some today /\
    StronglySorted Z.lt (map sim_date l).
Proof.
  intros days l H.
  pose proof (simulation_date_list _ _ H) as E.
  destruct (simulation_entries _ _ H) as (Hd & s & _ & El).
  split; [exact E|]. split.
  - rewrite El. unfold last_error. rewrite length_map, length_seq.
    rewrite nth_error_map, nth_error_seq.
    replace (Z.to_nat days - 1 <? Z.to_nat days)%nat with true
      by (symmetry; apply Nat.ltb_lt; lia).
    simpl. f_equal. lia.
  - rewrite E. apply next_days_sorted.
Qed.

Lemma StronglySorted_map_seq {A} (R : A -> A -> Prop) (f : nat -> A)
    (a n : nat) :
  (forall i j, (a <= i < j)%nat -> (j < a + n)%nat -> R (f i) (f j)) ->
  StronglySorted R (map f (seq a n)).
Proof.
  revert a. induction n as [|n IH]; intros a H; simpl; constructor.
  - apply IH. intros i j Hij Hj. apply H; lia.
  - rewrite Forall_forall. intros x Hx.
    apply in_map_iff in Hx. destruct Hx as (j & <- & Hj).
    apply in_seq in Hj. apply H; lia.
Qed.

(** X12.  As every draw lies between -8 and 8: each entry has a total of
    at least 99992 and a new_vehicles between 142 and 158, the total grows
    by between 134 and 166 from one entry to the next, and so the totals
    are strictly increasing. *)
Theorem simulation_values :
  forall (days : Z) (l : list DailyMetric),
    (forall i, -8 <= randint i <= 8) ->
    dimo_client.get_historical_data_simulation api_total randint today days
    = Ok l ->
    Forall (fun m => 99992 <= sim_total_vehicles m /\
                     142 <= sim_new_vehicles m <= 158) l /\
    (forall i a b,
        nth_error l i = Some a -> nth_error l (S i) = Some b ->
        134 <= sim_total_vehicles b - sim_total_vehicles a <= 166) /\
    StronglySorted Z.lt (map sim_total_vehicles l).
Proof.
  intros days l Hr H.
  destruct (simulation_entries _ _ H) as (Hd & s & Hs & ->).
  split; [|split].
  - rewrite Forall_forall. intros m Hm.
    apply in_map_iff in Hm. destruct Hm as (i & <- & _).
    cbn [sim_total_vehicles sim_new_vehicles].
    pose proof (Hr i). lia.
  - intros i a b Ha Hb.
    rewrite nth_error_map in Ha, Hb.
    destruct (nth_error (seq 0 (Z.to_nat days)) i) as [x|] eqn:Ex;
      [|discriminate].
    destruct (nth_error (seq 0 (Z.to_nat days)) (S i)) as [x'|] eqn:Ex';
      [|discriminate].
    rewrite nth_error_seq in Ex, Ex'.
    destruct (i <? Z.to_nat days)%nat; [|discriminate].
    destruct (S i <? Z.to_nat days)%nat; [|discriminate].
    injection Ex as <-. injection Ex' as <-.
    injection Ha as <-. injection Hb as <-.
    cbn [sim_total_vehicles sim_new_vehicles].
    pose proof (Hr i). pose proof (Hr (S i)). lia.
  - rewrite map_map. apply StronglySorted_map_seq.
    intros i j Hij Hj. cbn [sim_total_vehicles].
    pose proof (Hr i). pose proof (Hr j). lia.
Qed.

(** X14.  The forecaster sees the simulated history as it was generated:
    prepare_data keeps its entries in their order, one row per day. *)
Theorem simulation_is_prepared_unchanged :
  forall (days : Z) (l : list DailyMetric),
    dimo_client.get_historical_data_simulation api_total randint today days
    = Ok l ->
    prepare_data (as_records l)
    = Ok (map (fun m => mkRow (sim_date m) (sim_total_vehicles m)) l) /\
    StronglySorted Z.lt
      (map ds (map (fun m => mkRow (sim_date m) (sim_total_vehicles m)) l)).
Proof.
  intros days l H.
  pose proof (simulation_date_list _ _ H) as E.
  destruct (simulation_entries _ _ H) as (Hd & _).
  assert (Hne : as_records l <> []).
  { intros E0. apply (f_equal (@length HistoricalRecord)) in E0.
    unfold as_records in E0. rewrite length_map in E0.
    apply (f_equal (@length Z)) in E.
    unfold next_days in E. rewrite !length_map, length_seq in E.
    simpl in E0. lia. }
  assert (Hs : StronglySorted Z.lt (map date (as_records l))).
  { unfold as_records. rewrite map_map. simpl.
    change (map (fun m => sim_date m) l) with (map sim_date l).
    rewrite E. apply next_days_sorted. }
  split.
  - rewrite (prepare_data_keeps_rows_in_order _ Hne Hs).
    unfold as_records. now rewrite map_map.
  - rewrite map_map. simpl.
    change (map (fun m => sim_date m) l) with (map sim_date l).
    rewrite E. apply next_days_sorted.
Qed.

End SimulationFacts.


(** * The analytics routes *)

Section RouteFacts.

Context {Params : Type}.
Variable optimize : ProphetConfig -> DataFrame -> option Params.
Variable sample : ProphetConfig -> Params -> list Z -> Z -> Predicted.
Variable np_sqrt : fnum -> fnum.
Variable float_sub : Q -> Q -> Q.
Variable float_mean : list Q -> Q.
Variable randint : nat -> Z.

Lemma validate_model_returns (t : Z) (self : NetworkForecaster Params) :
  exists d, validate_model optimize sample np_sqrt t self = Ok d.
Proof.
  unfold validate_model.
  destruct (model self); [|eauto].
  destruct (training_data self); [|eauto].
  destruct (validate_model_body _ _ _ _ _); eauto.
Qed.

Lemma unfitted_forecast_empty (h : Z) (self : NetworkForecaster Params) :
  never_fitted self ->
  generate_forecast sample h self = (Ok EmptyDict, self).
Proof.
  unfold never_fitted, generate_forecast. intros H.
  destruct (model self) as [m|]; [|reflexivity].
  unfold generate_forecast_body.
  destruct (make_future_dataframe m h); [|reflexivity].
  unfold predict. now rewrite H.
Qed.

(* the data a route works on is never empty: the database answer when it
   has rows, the simulation otherwise *)
Lemma historical_data_nonempty (db_data : list DailyMetric)
    (api_total : option Z) (today days : Z) (data : list DailyMetric) :
  analytics.historical_data_of randint db_data api_total today days
  = Ok data ->
  data <> [].
Proof.
  unfold analytics.historical_data_of.
  destruct db_data as [|m db].
  - intros H. destruct (simulation_entries _ _ _ _ _ H) as (Hd & s & _ & ->).
    destruct (Z.to_nat days) eqn:E; [lia | discriminate].
  - intros [= <-]. discriminate.
Qed.

Lemma historical_data_90 (db_data : list DailyMetric)
    (api_total : option Z) (today : Z) :
  exists m data,
    analytics.historical_data_of randint db_data api_total today 90
    = Ok (m :: data).
Proof.
  unfold analytics.historical_data_of.
  destruct db_data as [|m db]; [|eauto].
  destruct (simulation_returns api_total randint today 90)
    as (l & -> & Hl); [lia|].
  change (Z.to_nat 90) with 90%nat in Hl.
  destruct l as [|m l]; [discriminate|]. eauto.
Qed.

Lemma train_model_on_records (a : HistoricalRecord) (hd : list HistoricalRecord)
    (forecaster f1 : NetworkForecaster Params) (b : bool) :
  train_model optimize (a :: hd) forecaster = (Ok b, f1) ->
  if b then exists m, model f1 = Some m /\ params m <> None
  else never_fitted f1.
Proof.
  unfold train_model, train_model_body.
  change (prepare_data (a :: hd))
    with (Ok (sort_values
                (map (fun r => mkRow (date r) (total_vehicles r)) (a :: hd)))).
  cbv iota.
  destruct (fit optimize (Prophet_init train_config) _) as [[u|e] m] eqn:Hfit;
    destruct (fit_outcome _ _ _ _ _ Hfit) as [_ Hp];
    intros [= <- <-].
  - exists m. split; [reflexivity | apply Hp].
  - unfold never_fitted. simpl. exact Hp.
Qed.

(** X15.  POST /forecast answers when training succeeds, the horizon is
    positive and its last day is a date of the calendar (the latest date of
    the data is 0001-01-01 or later, and days_ahead days after it is
    9999-12-31 or earlier): the response carries the forecast with exactly
    days_ahead predictions, a filled trend analysis, and whatever
    validate_model(14) returned, even the empty dictionary. *)
Theorem forecast_route_answers :
  forall (db_data : list DailyMetric) (api_total : option Z)
         (today h last_date : Z)
         (forecaster f1 : NetworkForecaster Params) (data : list DailyMetric),
    analytics.historical_data_of randint db_data api_total today 90
    = Ok data ->
    train_model optimize (as_records data) forecaster = (Ok true, f1) ->
    0 < h ->
    col_max (map date (as_records data)) = Some last_date ->
    datetime_min <= last_date ->
    last_date + h <= datetime_max ->
    exists resp f2 a,
      analytics.generate_forecast optimize sample np_sqrt float_sub float_mean
                                  randint db_data api_total today h forecaster
      = (Respond resp, f2) /\
      generate_forecast sample h f1 = (Ok (Dict (resp_forecast resp)), f2) /\
      length (predictions (resp_forecast resp)) = Z.to_nat h /\
      validate_model optimize sample np_sqrt 14 f2
      = Ok (resp_validation resp) /\
      resp_trend_analysis resp = Dict a.
Proof.
  intros db_data api_total today h L forecaster f1 data Hdata Htrain Hh
         Hlast Hlo Hhi.
  destruct data as [|m data].
  { now destruct (historical_data_nonempty _ _ _ _ _ Hdata). }
  destruct (forecast_after_training optimize sample _ _ _ _ _
              Htrain Hh Hlast Hlo Hhi)
    as (r & f2 & hdates & fr & Hg & Hfr & _ & _ & Hdates).
  destruct (validate_model_returns 14 f2) as (v & Hv).
  unfold analytics.generate_forecast.
  rewrite Hdata, Htrain, Hg, Hv.
  unfold get_trend_analysis. rewrite Hfr.
  eexists. exists f2. eexists.
  split; [reflexivity|]. cbn [resp_forecast resp_validation resp_trend_analysis].
  split; [reflexivity|]. split; [|split; [exact Hv | reflexivity]].
  rewrite <- (length_map p_date), Hdates.
  unfold next_days. now rewrite length_map, length_seq.
Qed.

(** X16.  POST /forecast with a horizon that is zero or negative answers
    500 "Failed to generate forecast" although the training succeeded. *)
Theorem forecast_route_nonpositive_horizon :
  forall (db_data : list DailyMetric) (api_total : option Z) (today h : Z)
         (forecaster f1 : NetworkForecaster Params) (data : list DailyMetric),
    analytics.historical_data_of randint db_data api_total today 90
    = Ok data ->
    train_model optimize (as_records data) forecaster = (Ok true, f1) ->
    h <= 0 ->
    fst (analytics.generate_forecast
           optimize sample np_sqrt float_sub float_mean randint
           db_data api_total today h forecaster)
    = HTTP500 ForecastFailed.
Proof.
  intros db_data api_total today h forecaster f1 data Hdata Htrain Hh.
  destruct data as [|m data].
  { now destruct (historical_data_nonempty _ _ _ _ _ Hdata). }
  pose proof (nonpositive_horizon_empty optimize sample _ _ _ _ Htrain Hh)
    as He.
  unfold analytics.generate_forecast. rewrite Hdata, Htrain.
  destruct (generate_forecast sample h f1) as [out f2].
  simpl in He. subst out. reflexivity.
Qed.

(** X17.  When the training of a request fails, the route answers 500
    "Failed to train forecasting model" and the module's forecaster is left
    without a fitted model: whatever it held before, generate_forecast now
    returns the empty dictionary until a later training succeeds. *)
Theorem forecast_route_failed_training :
  forall (db_data : list DailyMetric) (api_total : option Z) (today h : Z)
         (forecaster f1 : NetworkForecaster Params) (data : list DailyMetric),
    analytics.historical_data_of randint db_data api_total today 90
    = Ok data ->
    train_model optimize (as_records data) forecaster = (Ok false, f1) ->
    analytics.generate_forecast optimize sample np_sqrt float_sub float_mean
                                randint db_data api_total today h forecaster
    = (HTTP500 TrainFailed, f1) /\
    never_fitted f1 /\
    forall h', generate_forecast sample h' f1 = (Ok EmptyDict, f1).
Proof.
  intros db_data api_total today h forecaster f1 data Hdata Htrain.
  destruct data as [|m data].
  { now destruct (historical_data_nonempty _ _ _ _ _ Hdata). }
  pose proof (train_model_on_records _ _ _ _ _ Htrain) as Hnf.
  simpl in Hnf.
  split; [|split; [exact Hnf|]].
  - unfold analytics.generate_forecast. now rewrite Hdata, Htrain.
  - intros h'. now apply unfitted_forecast_empty.
Qed.

(** X18.  POST /forecast has three outcomes only: a response, 500
    "Failed to train forecasting model" or 500 "Failed to generate
    forecast".  The branch "No historical data available" is never taken,
    since the simulation always supplies 90 entries, and no other exception
    reaches the handler. *)
Theorem forecast_route_outcomes :
  forall (db_data : list DailyMetric) (api_total : option Z) (today h : Z)
         (forecaster : NetworkForecaster Params),
    let out := fst (analytics.generate_forecast
                      optimize sample np_sqrt float_sub float_mean randint
                      db_data api_total today h forecaster) in
    (exists resp, out = Respond resp) \/
    out = HTTP500 TrainFailed \/
    out = HTTP500 ForecastFailed.
Proof.
  intros db_data api_total today h forecaster. cbv zeta.
  destruct (historical_data_90 db_data api_total today) as (m & data & Hdata).
  unfold analytics.generate_forecast. rewrite Hdata.
  destruct (train_model optimize (as_records (m :: data)) forecaster)
    as [[[|]|e] f1] eqn:Htrain.
  - destruct (generate_forecast sample h f1) as [[[|r]|e] f2] eqn:Hg.
    + right; right; reflexivity.
    + destruct (validate_model_returns 14 f2) as (v & ->).
      unfold get_trend_analysis.
      destruct (forecast_result f2); left; eexists; reflexivity.
    + exfalso. revert Hg. unfold generate_forecast.
      destruct (model f1); [|discriminate].
      destruct (generate_forecast_body _ _ _ _) as [[?|?] ?]; discriminate.
  - right; left; reflexivity.
  - exfalso. revert Htrain. unfold train_model.
    destruct (train_model_body _ _ _) as [[?|?] ?]; discriminate.
Qed.

(** ** GET /growth-rate *)

Lemma truediv_nonzero (a b : Q) :
  ~ (b == 0)%Q -> truediv a b = Respond (a / b)%Q.
Proof.
  intros H. unfold truediv.
  destruct (Qeq_bool b 0) eqn:E; [|reflexivity].
  apply Qeq_bool_eq in E. contradiction.
Qed.

Lemma inject_Z_nonzero (z : Z) : z <> 0 -> ~ (inject_Z z == 0)%Q.
Proof.
  intros H E. unfold Qeq in E. simpl in E. lia.
Qed.

Lemma map_last_default {A B} (f : A -> B) (l : list A) (d : A) :
  last (map f l) (f d) = f (last l d).
Proof.
  induction l as [|a [|b l] IH]; try reflexivity. exact IH.
Qed.

(* the computation once the data is at hand *)
Lemma growth_rate_of_data (db_data : list DailyMetric) (api_total : option Z)
    (today : Z) (first_day second : DailyMetric) (rest : list DailyMetric) :
  analytics.historical_data_of randint db_data api_total today 30
  = Ok (first_day :: second :: rest) ->
  exists g,
    analytics.get_growth_rate randint db_data api_total today = Respond g /\
    time_period g = Z.of_nat (length (first_day :: second :: rest)) /\
    start_vehicles g = sim_total_vehicles first_day /\
    end_vehicles g = sim_total_vehicles (last rest second) /\
    total_growth g = end_vehicles g - start_vehicles g /\
    gr_avg_daily_growth g
    = round2 (inject_Z (total_growth g) / inject_Z (time_period g)) /\
    (sim_total_vehicles first_day <= 0 -> gr_growth_percentage g = round2 0) /\
    (0 < sim_total_vehicles first_day ->
     gr_growth_percentage g
     = round2 (inject_Z (total_growth g)
               / inject_Z (sim_total_vehicles first_day) * 100)) /\
    ((length (first_day :: second :: rest) < 14)%nat ->
     week_over_week_growth g = round2 0).
Proof.
  intros Hdata. unfold analytics.get_growth_rate. rewrite Hdata. cbv iota zeta.
  set (data := first_day :: second :: rest).
  set (last_day := last (second :: rest) first_day).
  assert (Hlast : last_day = last rest second)
    by (unfold last_day; apply last_cons_default).
  set (tg := sim_total_vehicles last_day - sim_total_vehicles first_day).
  assert (Hlen : 2 <= Z.of_nat (length data)) by (unfold data; simpl; lia).
  replace (0 <? Z.of_nat (length data)) with true
    by (symmetry; apply Z.ltb_lt; lia).
  rewrite truediv_nonzero by (apply inject_Z_nonzero; lia).
  cbn [http_bind].
  (* the weekly comparison never divides by zero *)
  assert (Hwow : exists w,
             (if 14 <=? Z.of_nat (length data)
              then
                http_bind
                  (truediv (inject_Z (sum_total_vehicles
                                        (slice_from data (-7)))) 7)
                  (fun last_week_avg =>
                     http_bind
                       (truediv (inject_Z (sum_total_vehicles
                                             (slice data (-14) (-7)))) 7)
                       (fun prev_week_avg =>
                          if Qlt_bool 0 prev_week_avg
                          then http_bind
                                 (truediv (last_week_avg - prev_week_avg)
                                          prev_week_avg)
                                 (fun x => Respond (x * 100)%Q)
                          else Respond 0%Q))
              else Respond 0%Q) = Respond w /\
             ((length data < 14)%nat -> w = 0%Q)).
  { destruct (Z.leb_spec 14 (Z.of_nat (length data))) as [H14 | H14].
    - rewrite !truediv_nonzero by (intros E; discriminate E).
      cbn [http_bind].
      destruct (Qlt_bool 0 _) eqn:Epw.
      + rewrite truediv_nonzero.
        * eexists. split; [reflexivity|]. intros; lia.
        * unfold Qlt_bool in Epw. apply negb_true_iff in Epw.
          intros E. apply Qeq_bool_neq in Epw || idtac.
          assert (Hle : Qle_bool
                          (inject_Z (sum_total_vehicles
                                       (slice data (-14) (-7))) / 7) 0
                        = true).
          { apply Qle_bool_iff. rewrite E. apply Qle_refl. }
          congruence.
      + eexists. split; [reflexivity|]. intros; lia.
    - eexists. split; [reflexivity|]. reflexivity. }
  destruct Hwow as (w & Hw & Hw0).
  destruct (Z.ltb_spec 0 (sim_total_vehicles first_day)) as [Hpos | Hnon].
  - rewrite truediv_nonzero by (apply inject_Z_nonzero; lia).
    cbn [http_bind]. rewrite Hw. cbn [http_bind].
    eexists. split; [reflexivity|].
    cbn [time_period start_vehicles end_vehicles total_growth
         gr_avg_daily_growth gr_growth_percentage week_over_week_growth].
    rewrite <- Hlast. fold tg.
    repeat split; try reflexivity; try (intros; lia).
    intros H. now rewrite Hw0.
  - cbn [http_bind]. rewrite Hw. cbn [http_bind].
    eexists. split; [reflexivity|].
    cbn [time_period start_vehicles end_vehicles total_growth
         gr_avg_daily_growth gr_growth_percentage week_over_week_growth].
    rewrite <- Hlast. fold tg.
    repeat split; try reflexivity; try (intros; lia).
    intros H. now rewrite Hw0.
Qed.

Lemma growth_data_of_db (api_total : option Z) (today : Z)
    (a b : DailyMetric) (db : list DailyMetric) :
  analytics.historical_data_of randint (a :: b :: db) api_total today 30
  = Ok (a :: b :: db).
Proof. reflexivity. Qed.

(** X19.  GET /growth-rate fails in one case only: when the database
    holds exactly one entry it answers 500 "Insufficient data for growth
    rate calculation".  With two or more entries, and with none (the
    30-day simulation then supplies the data), it answers; none of its four
    divisions can divide by zero. *)
Theorem growth_rate_outcomes :
  forall (db_data : list DailyMetric) (api_total : option Z) (today : Z),
    (forall m, db_data = [m] ->
               analytics.get_growth_rate randint db_data api_total today
               = HTTP500 InsufficientData) /\
    (length db_data <> 1%nat ->
     exists g,
       analytics.get_growth_rate randint db_data api_total today
       = Respond g).
Proof.
  intros db_data api_total today. split.
  - intros m ->. reflexivity.
  - intros Hlen.
    assert (Hdata : exists a b l,
               analytics.historical_data_of randint db_data api_total today 30
               = Ok (a :: b :: l)).
    { destruct db_data as [|a [|b db]];
        [|simpl in Hlen; lia|do 3 eexists; reflexivity].
      unfold analytics.historical_data_of.
      destruct (simulation_returns api_total randint today 30)
        as (l & -> & Hl); [lia|].
      change (Z.to_nat 30) with 30%nat in Hl.
      destruct l as [|a [|b l]]; try discriminate. eauto. }
    destruct Hdata as (a & b & l & Hdata).
    destruct (growth_rate_of_data _ _ _ _ _ _ Hdata) as (g & Hg & _).
    eauto.
Qed.

(* rounding to two decimals moves a number by less than a hundredth *)
Lemma round2_close (q : Q) : (Qabs (round2 q - q) < 1 # 100)%Q.
Proof.
  destruct (py_round2_close q) as (x & Hx & Hc).
  unfold py_round2 in Hx. injection Hx as <-. exact Hc.
Qed.

(** X20.  avg_daily_growth divides the growth between the first and the
    last entry by the number of entries, not by the number of days between
    them: on database entries that rise by exactly c per day over n entries
    the growth is c*(n-1) and the reported average is c*(n-1)/n rounded to
    two decimals, so within a hundredth of c*(n-1)/n. *)
Theorem growth_rate_average_over_entries :
  forall (db_data : list DailyMetric) (api_total : option Z) (today : Z)
         (n : nat) (a c : Z),
    (2 <= n)%nat ->
    map sim_total_vehicles db_data
    = map (fun i => a + c * Z.of_nat i) (seq 0 n) ->
    exists g,
      analytics.get_growth_rate randint db_data api_total today = Respond g /\
      time_period g = Z.of_nat n /\
      total_growth g = c * (Z.of_nat n - 1) /\
      (Qabs (gr_avg_daily_growth g
             - inject_Z (c * (Z.of_nat n - 1)) / inject_Z (Z.of_nat n))
       < 1 # 100)%Q.
Proof.
  intros db_data api_total today n a c Hn Hmap.
  assert (Hlen : length db_data = n).
  { apply (f_equal (@length Z)) in Hmap.
    now rewrite !length_map, length_seq in Hmap. }
  destruct db_data as [|x [|y db]]; try (simpl in Hlen; lia).
  destruct (growth_rate_of_data _ api_total today _ _ _
              (growth_data_of_db api_total today x y db))
    as (g & Hg & Hp & Hs & He & Ht & Havg & _).
  exists g. split; [exact Hg|].
  assert (Hfirst : sim_total_vehicles x = a).
  { destruct n; [lia|]. simpl in Hmap. injection Hmap as Hx _. lia. }
  assert (Hlast : sim_total_vehicles (last db y) = a + c * (Z.of_nat n - 1)).
  { rewrite <- (last_cons_default db y x).
    rewrite <- (last_cons_default (y :: db) x x).
    rewrite <- map_last_default, Hmap.
    destruct n as [|n]; [lia|].
    rewrite seq_S, map_app. cbn [map]. rewrite last_last. lia. }
  rewrite Hp, Ht, He, Hs, Hlast, Hfirst, Hlen in *.
  assert (Hgrowth : a + c * (Z.of_nat n - 1) - a = c * (Z.of_nat n - 1))
    by lia.
  split; [reflexivity|]. split; [exact Hgrowth|].
  rewrite Havg, Hgrowth. apply round2_close.
Qed.

(** X21.  The two percentages of GET /growth-rate fall back to zero: the
    growth percentage when the first entry's total is zero or negative, the
    week-over-week growth when fewer than 14 entries are at hand. *)
Theorem growth_rate_zero_fallbacks :
  forall (api_total : option Z) (today : Z)
         (a b : DailyMetric) (db : list DailyMetric),
    exists g,
      analytics.get_growth_rate randint (a :: b :: db) api_total today
      = Respond g /\
      (sim_total_vehicles a <= 0 -> (gr_growth_percentage g == 0)%Q) /\
      ((length (a :: b :: db) < 14)%nat ->
       (week_over_week_growth g == 0)%Q).
Proof.
  intros api_total today a b db.
  destruct (growth_rate_of_data _ api_total today _ _ _
              (growth_data_of_db api_total today a b db))
    as (g & Hg & _ & _ & _ & _ & _ & Hz & _ & Hw).
  exists g. split; [exact Hg|]. split.
  - intros H. rewrite (Hz H). reflexivity.
  - intros H. rewrite (Hw H). reflexivity.
Qed.

End RouteFacts.

(** * The further properties at concrete inputs *)

Lemma generate_forecast_nonpositive_horizon_witness :
  train_model line_optimize slow_history init
  = (Ok true, run_train line_optimize slow_history) /\
  0 <= 0 /\
  fst (generate_forecast line_sample 0 (run_train line_optimize slow_history))
  = Ok EmptyDict.
Proof.
  assert (Ht : train_model line_optimize slow_history init
               = (Ok true, run_train line_optimize slow_history))
    by by_evaluation.
  split; [exact Ht|]. split; [lia|].
  apply (generate_forecast_nonpositive_horizon
           line_optimize line_sample slow_history init _ 0 Ht).
  lia.
Defined.

Lemma milestones_read_clipped_predictions_witness :
  exists r self',
    generate_forecast line_sample 3 (run_train line_optimize slow_history)
    = (Ok (Dict r), self') /\
    (0 < length (predictions r))%nat /\
    option_map predicted_vehicles
      (nth_error (predictions r) (Nat.min 29 (length (predictions r) - 1)))
    = Some (m_predicted_vehicles (day_30 r)) /\
    option_map predicted_vehicles
      (nth_error (predictions r) (Nat.min 89 (length (predictions r) - 1)))
    = Some (m_predicted_vehicles (day_90 r)) /\
    option_map predicted_vehicles
      (nth_error (predictions r) (Nat.min 179 (length (predictions r) - 1)))
    = Some (m_predicted_vehicles (day_180 r)).
Proof.
  exists_dict_and_state
    (generate_forecast line_sample 3 (run_train line_optimize slow_history)).
  match goal with
  | |- ?G /\ _ => assert (Hg : G) by by_evaluation
  end.
  split; [exact Hg|].
  exact (milestones_read_clipped_predictions line_sample 3 _ _ _ Hg).
Defined.

Lemma short_horizon_milestones_coincide_witness :
  exists r self',
    generate_forecast line_sample 3 (run_train line_optimize slow_history)
    = (Ok (Dict r), self') /\
    (length (predictions r) <= 30)%nat /\
    day_30 r = day_90 r /\ day_90 r = day_180 r /\
    option_map predicted_vehicles (last_error (predictions r))
    = Some (m_predicted_vehicles (day_180 r)).
Proof.
  exists_dict_and_state
    (generate_forecast line_sample 3 (run_train line_optimize slow_history)).
  match goal with
  | |- ?G /\ ?L /\ _ =>
      assert (Hg : G) by by_evaluation;
      assert (Hl : L) by (vm_compute; lia)
  end.
  split; [exact Hg|]. split; [exact Hl|].
  exact (short_horizon_milestones_coincide line_sample 3 _ _ _ Hg Hl).
Defined.

Lemma forecast_current_is_latest_record_witness :
  exists r self2,
    train_model line_optimize [mkRecord 5 100; mkRecord 0 99] init
    = (Ok true, run_train line_optimize [mkRecord 5 100; mkRecord 0 99]) /\
    generate_forecast line_sample 3
      (run_train line_optimize [mkRecord 5 100; mkRecord 0 99])
    = (Ok (Dict r), self2) /\
    forecast_horizon r = 3 /\
    col_max (map date [mkRecord 5 100; mkRecord 0 99])
    = Some (current_date r) /\
    exists rec,
      In rec [mkRecord 5 100; mkRecord 0 99] /\
      date rec = current_date r /\
      total_vehicles rec = current_vehicles r.
Proof.
  exists_dict_and_state
    (generate_forecast line_sample 3
       (run_train line_optimize [mkRecord 5 100; mkRecord 0 99])).
  match goal with
  | |- ?T /\ ?G /\ _ =>
      assert (Ht : T) by by_evaluation;
      assert (Hg : G) by by_evaluation
  end.
  split; [exact Ht|]. split; [exact Hg|].
  exact (forecast_current_is_latest_record
           line_optimize line_sample _ _ _ _ 3 _ Ht Hg).
Defined.

Lemma growth_from_current_is_difference_witness :
  exists r self',
    generate_forecast line_sample 3 (run_train line_optimize slow_history)
    = (Ok (Dict r), self') /\
    (day_30 r = day_30 r \/ day_30 r = day_90 r \/ day_30 r = day_180 r) /\
    0 <= current_vehicles r <= m_predicted_vehicles (day_30 r) /\
    growth_from_current (day_30 r)
    = m_predicted_vehicles (day_30 r) - current_vehicles r.
Proof.
  exists_dict_and_state
    (generate_forecast line_sample 3 (run_train line_optimize slow_history)).
  match goal with
  | |- ?G /\ ?M /\ ?B /\ _ =>
      assert (Hg : G) by by_evaluation;
      assert (Hm : M) by (left; reflexivity);
      assert (Hb : B) by (vm_compute; split; discriminate)
  end.
  split; [exact Hg|]. split; [exact Hm|]. split; [exact Hb|].
  exact (growth_from_current_is_difference line_sample 3 _ _ _ _ Hg Hm Hb).
Defined.

Lemma validate_model_short_prefix_witness :
  exists td,
    training_data (run_train line_optimize dip_history) = Some td /\
    (0 = 0 \/ (0 < 0 /\ Z.of_nat (length td) < 0 + 2)) /\
    validate_model line_optimize line_sample id_sqrt 0
                   (run_train line_optimize dip_history) = Ok EmptyDict.
Proof.
  exists_some (training_data (run_train line_optimize dip_history)).
  match goal with
  | |- ?T /\ ?S /\ _ =>
      assert (Ht : T) by by_evaluation;
      assert (Hs : S) by (left; reflexivity)
  end.
  split; [exact Ht|]. split; [exact Hs|].
  exact (validate_model_short_prefix_returns_empty
           line_optimize line_sample id_sqrt 0 _ _ Ht Hs).
Defined.

Lemma validate_model_metrics_witness :
  exists td th,
    model (run_train line_optimize dip_history) <> None /\
    training_data (run_train line_optimize dip_history) = Some td /\
    0 < 2 /\
    2 + 2 <= Z.of_nat (length td) /\
    line_optimize validation_config (firstn (length td - Z.to_nat 2) td)
    = Some th /\
    exists m q,
      validate_model line_optimize line_sample id_sqrt 2
                     (run_train line_optimize dip_history) = Ok (Dict m) /\
      test_size_used m = 2 /\
      mae m = Fin q /\ (0 <= q)%Q.
Proof.
  exists_some (training_data (run_train line_optimize dip_history)).
  match goal with
  | |- exists th, _ /\ _ /\ _ /\ _ /\ ?o = _ /\ _ =>
      match eval vm_compute in o with Some ?v => exists v end
  end.
  match goal with
  | |- ?M /\ ?T /\ ?P /\ ?L /\ ?O /\ _ =>
      assert (Hm : M) by (vm_compute; discriminate);
      assert (Ht : T) by by_evaluation;
      assert (Hp : P) by lia;
      assert (Hl : L) by (vm_compute; discriminate);
      assert (Ho : O) by by_evaluation
  end.
  repeat (split; [assumption|]).
  exact (validate_model_metrics line_optimize line_sample id_sqrt 2 _ _ _
           Hm Ht Hp Hl Ho).
Defined.

Lemma trend_analysis_is_finite_witness :
  exists fr,
    forecast_result
      (snd (run_forecast line_optimize line_sample slow_history 3))
    = Some fr /\
    (2 <= length fr)%nat /\
    exists a,
      get_trend_analysis exact_sub exact_mean
        (snd (run_forecast line_optimize line_sample slow_history 3))
      = Ok (Dict a) /\
      is_finite (avg_daily_trend_change a) = true /\
      is_finite (recent_30day_trend a) = true /\
      is_finite (historical_30day_trend a) = true /\
      is_finite (growth_momentum a) = true.
Proof.
  exists_some (forecast_result
                 (snd (run_forecast line_optimize line_sample slow_history 3))).
  match goal with
  | |- ?F /\ ?L /\ _ =>
      assert (Hf : F) by by_evaluation;
      assert (Hl : L) by (vm_compute; lia)
  end.
  split; [exact Hf|]. split; [exact Hl|].
  exact (trend_analysis_is_finite exact_sub exact_mean _ _ Hf Hl).
Defined.

Lemma saw_noise_bounded (i : nat) : -8 <= saw_noise i <= 8.
Proof.
  unfold saw_noise. pose proof (Nat.mod_upper_bound i 17). lia.
Qed.

Lemma simulation_length_witness :
  (0 <= 0 /\
   dimo_client.get_historical_data_simulation None saw_noise 1000 0
   = Raise IndexError) /\
  0 < 3 /\
  datetime_min <= 1000 - 3 + 1 /\
  1000 <= datetime_max /\
  exists l,
    dimo_client.get_historical_data_simulation None saw_noise 1000 3 = Ok l /\
    length l = Z.to_nat 3 /\
    Forall (fun m => formattable (sim_date m)) l.
Proof.
  assert (H0 : 0 <= 0) by lia.
  assert (H3 : 0 < 3) by lia.
  assert (Hlo : datetime_min <= 1000 - 3 + 1) by (unfold datetime_min; lia).
  assert (Hhi : 1000 <= datetime_max) by (unfold datetime_max; lia).
  split; [split; [exact H0|]|].
  - exact (proj1 (simulation_length None saw_noise 1000 0) H0).
  - repeat (split; [assumption|]).
    exact (proj2 (simulation_length None saw_noise 1000 3) H3 Hlo Hhi).
Defined.

Lemma simulation_dates_witness :
  dimo_client.get_historical_data_simulation None saw_noise 1000 3
  = Ok (demo_history 3) /\
  map sim_date (demo_history 3) = next_days (1000 - 3) (Z.to_nat 3) /\
  option_map sim_date (last_error (demo_history 3)) = Some 1000 /\
  StronglySorted Z.lt (map sim_date (demo_history 3)).
Proof.
  assert (H : dimo_client.get_historical_data_simulation None saw_noise 1000 3
              = Ok (demo_history 3)) by by_evaluation.
  split; [exact H|].
  exact (simulation_dates None saw_noise 1000 3 _ H).
Defined.

Lemma simulation_values_witness :
  (forall i, -8 <= saw_noise i <= 8) /\
  dimo_client.get_historical_data_simulation None saw_noise 1000 3
  = Ok (demo_history 3) /\
  Forall (fun m => 99992 <= sim_total_vehicles m /\
                   142 <= sim_new_vehicles m <= 158) (demo_history 3) /\
  (forall i a b,
      nth_error (demo_history 3) i = Some a ->
      nth_error (demo_history 3) (S i) = Some b ->
      134 <= sim_total_vehicles b - sim_total_vehicles a <= 166) /\
  StronglySorted Z.lt (map sim_total_vehicles (demo_history 3)).
Proof.
  assert (H : dimo_client.get_historical_data_simulation None saw_noise 1000 3
              = Ok (demo_history 3)) by by_evaluation.
  split; [exact saw_noise_bounded|]. split; [exact H|].
  exact (simulation_values None saw_noise 1000 3 _ saw_noise_bounded H).
Defined.

Lemma prepare_data_keeps_sorted_input_witness :
  slow_history <> [] /\
  StronglySorted Z.lt (map date slow_history) /\
  prepare_data slow_history
  = Ok (map (fun r => mkRow (date r) (total_vehicles r)) slow_history).
Proof.
  assert (Hne : slow_history <> []) by discriminate.
  assert (Hs : StronglySorted Z.lt (map date slow_history))
    by (repeat constructor).
  split; [exact Hne|]. split; [exact Hs|].
  exact (prepare_data_keeps_sorted_input slow_history Hne Hs).
Defined.

Lemma simulation_is_prepared_unchanged_witness :
  dimo_client.get_historical_data_simulation None saw_noise 1000 3
  = Ok (demo_history 3) /\
  prepare_data (as_records (demo_history 3))
  = Ok (map (fun m => mkRow (sim_date m) (sim_total_vehicles m))
            (demo_history 3)) /\
  StronglySorted Z.lt
    (map ds (map (fun m => mkRow (sim_date m) (sim_total_vehicles m))
                 (demo_history 3))).
Proof.
  assert (H : dimo_client.get_historical_data_simulation None saw_noise 1000 3
              = Ok (demo_history 3)) by by_evaluation.
  split; [exact H|].
  exact (simulation_is_prepared_unchanged None saw_noise 1000 3 _ H).
Defined.

Lemma forecast_route_answers_witness :
  analytics.historical_data_of saw_noise [] None 1000 90
  = Ok (demo_history 90) /\
  train_model line_optimize (as_records (demo_history 90)) init
  = (Ok true, run_train line_optimize (as_records (demo_history 90))) /\
  0 < 30 /\
  col_max (map date (as_records (demo_history 90))) = Some 1000 /\
  datetime_min <= 1000 /\
  1000 + 30 <= datetime_max /\
  exists resp f2 a,
    analytics.generate_forecast line_optimize line_sample id_sqrt
                                exact_sub exact_mean saw_noise
                                [] None 1000 30 init
    = (Respond resp, f2) /\
    generate_forecast line_sample 30
      (run_train line_optimize (as_records (demo_history 90)))
    = (Ok (Dict (resp_forecast resp)), f2) /\
    length (predictions (resp_forecast resp)) = Z.to_nat 30 /\
    validate_model line_optimize line_sample id_sqrt 14 f2
    = Ok (resp_validation resp) /\
    resp_trend_analysis resp = Dict a.
Proof.
  assert (Hd : analytics.historical_data_of saw_noise [] None 1000 90
               = Ok (demo_history 90)) by by_evaluation.
  assert (Ht : train_model line_optimize (as_records (demo_history 90)) init
               = (Ok true,
                  run_train line_optimize (as_records (demo_history 90))))
    by by_evaluation.
  assert (Hh : 0 < 30) by lia.
  assert (Hl : col_max (map date (as_records (demo_history 90))) = Some 1000)
    by by_evaluation.
  assert (Hlo : datetime_min <= 1000) by (unfold datetime_min; lia).
  assert (Hhi : 1000 + 30 <= datetime_max) by (unfold datetime_max; lia).
  repeat (split; [assumption|]).
  exact (forecast_route_answers line_optimize line_sample id_sqrt
           exact_sub exact_mean saw_noise
           [] None 1000 30 1000 init _ _ Hd Ht Hh Hl Hlo Hhi).
Defined.

Lemma forecast_route_nonpositive_horizon_witness :
  analytics.historical_data_of saw_noise [] None 1000 90
  = Ok (demo_history 90) /\
  train_model line_optimize (as_records (demo_history 90)) init
  = (Ok true, run_train line_optimize (as_records (demo_history 90))) /\
  0 <= 0 /\
  fst (analytics.generate_forecast line_optimize line_sample id_sqrt
                                   exact_sub exact_mean saw_noise
                                   [] None 1000 0 init)
  = HTTP500 ForecastFailed.
Proof.
  assert (Hd : analytics.historical_data_of saw_noise [] None 1000 90
               = Ok (demo_history 90)) by by_evaluation.
  assert (Ht : train_model line_optimize (as_records (demo_history 90)) init
               = (Ok true,
                  run_train line_optimize (as_records (demo_history 90))))
    by by_evaluation.
  assert (Hh : 0 <= 0) by lia.
  split; [exact Hd|]. split; [exact Ht|]. split; [exact Hh|].
  exact (forecast_route_nonpositive_horizon
           line_optimize line_sample id_sqrt exact_sub exact_mean saw_noise
           [] None 1000 0 init _ _ Hd Ht Hh).
Defined.

Lemma forecast_route_failed_training_witness :
  analytics.historical_data_of saw_noise [mkDailyMetric 7 3 1] None 1000 90
  = Ok [mkDailyMetric 7 3 1] /\
  train_model line_optimize (as_records [mkDailyMetric 7 3 1])
              (run_train line_optimize slow_history)
  = (Ok false,
     snd (train_model line_optimize (as_records [mkDailyMetric 7 3 1])
                      (run_train line_optimize slow_history))) /\
  analytics.generate_forecast line_optimize line_sample id_sqrt
                              exact_sub exact_mean saw_noise
                              [mkDailyMetric 7 3 1] None 1000 30
                              (run_train line_optimize slow_history)
  = (HTTP500 TrainFailed,
     snd (train_model line_optimize (as_records [mkDailyMetric 7 3 1])
                      (run_train line_optimize slow_history))) /\
  never_fitted
    (snd (train_model line_optimize (as_records [mkDailyMetric 7 3 1])
                      (run_train line_optimize slow_history))) /\
  forall h',
    generate_forecast line_sample h'
      (snd (train_model line_optimize (as_records [mkDailyMetric 7 3 1])
                        (run_train line_optimize slow_history)))
    = (Ok EmptyDict,
       snd (train_model line_optimize (as_records [mkDailyMetric 7 3 1])
                        (run_train line_optimize slow_history))).
Proof.
  assert (Hd : analytics.historical_data_of saw_noise [mkDailyMetric 7 3 1]
                                            None 1000 90
               = Ok [mkDailyMetric 7 3 1]) by reflexivity.
  assert (Ht : train_model line_optimize (as_records [mkDailyMetric 7 3 1])
                           (run_train line_optimize slow_history)
               = (Ok false,
                  snd (train_model line_optimize
                         (as_records [mkDailyMetric 7 3 1])
                         (run_train line_optimize slow_history))))
    by by_evaluation.
  split; [exact Hd|]. split; [exact Ht|].
  exact (forecast_route_failed_training
           line_optimize line_sample id_sqrt exact_sub exact_mean saw_noise
           [mkDailyMetric 7 3 1] None 1000 30 _ _ _ Hd Ht).
Defined.

Lemma growth_rate_average_over_entries_witness :
  (2 <= 3)%nat /\
  map sim_total_vehicles steady_rows
  = map (fun i => 10 + 10 * Z.of_nat i) (seq 0 3) /\
  exists g,
    analytics.get_growth_rate saw_noise steady_rows None 1000 = Respond g /\
    time_period g = Z.of_nat 3 /\
    total_growth g = 10 * (Z.of_nat 3 - 1) /\
    (Qabs (gr_avg_daily_growth g
           - inject_Z (10 * (Z.of_nat 3 - 1)) / inject_Z (Z.of_nat 3))
     < 1 # 100)%Q.
Proof.
  assert (Hn : (2 <= 3)%nat) by lia.
  assert (Hm : map sim_total_vehicles steady_rows
               = map (fun i => 10 + 10 * Z.of_nat i) (seq 0 3))
    by reflexivity.
  split; [exact Hn|]. split; [exact Hm|].
  exact (growth_rate_average_over_entries saw_noise steady_rows None 1000
           3 10 10 Hn Hm).
Defined.
